(** * pg_incremental: pipeline registry and file-list pipelines

    A shallow embedding of [src/src/pipeline.c] and [src/src/file_list.c].

    The C functions run inside a PostgreSQL backend.  What they read and write
    is gathered in one record, [Backend]: the current user identity and
    security context (the globals behind [GetUserIdAndSecContext] and
    [SetUserIdAndSecContext]), the rows of the extension's tables as the
    running transaction sees them, the notices sent to the client and the user
    commands handed to SPI.  A C function becomes a state transformer in the
    monad [M]; [ereport(ERROR, ...)] is a non-local exit that carries the
    backend state at the moment it is raised.

    Left out: SPI_connect and SPI_finish, memory contexts and snapshots, which
    change nothing that is recorded in [Backend], and the row lock of
    [select ... for update], which only orders concurrent backends. *)

From Stdlib Require Import ZArith List String Ascii Bool Lia DecimalString.
Import ListNotations.

Open Scope Z_scope.
Open Scope list_scope.

(** ** Machine integers *)

(** A C [int] (32 bits, two's complement; PostgreSQL is built with [-fwrapv]). *)
Definition int32 (z : Z) : Z := (z + 2147483648) mod 4294967296 - 2147483648.

Definition INT_MAX : Z := 2147483647.

Definition int_add (a b : Z) : Z := int32 (a + b).
Definition int_sub (a b : Z) : Z := int32 (a - b).

(** ** PostgreSQL constants and types used by the sources *)

Definition Oid := Z.

Definition BOOTSTRAP_SUPERUSERID : Oid := 10.
Definition SECURITY_LOCAL_USERID_CHANGE : Z := 1.

(** A [List] is one palloc'd array of 8-byte cells and no allocation exceeds
    [MaxAllocSize] = 0x3fffffff bytes. *)
Definition MaxAllocSize : Z := 1073741823.
Definition MaxListLength : Z := MaxAllocSize / 8.

Definition list_length {A : Type} (l : list A) : Z := Z.of_nat (List.length l).

Definition lappend {A : Type} (l : list A) (datum : A) : list A := l ++ [datum].

(** [pipeline.h] *)
Definition PipelineType := ascii.

Definition SEQUENCE_RANGE_PIPELINE : PipelineType := "s"%char.
Definition TIME_INTERVAL_PIPELINE : PipelineType := "t"%char.

Record PipelineDesc : Type := mkPipelineDesc {
  pipelineName : string;
  pipelineType : PipelineType;
  ownerId : Oid;
  sourceRelationId : Oid;
  command : string
}.

(** [file_list.c]: the set of files that can be safely processed. *)
Record FileList : Type := mkFileList {
  files : list string;
  batched : bool;
  maxBatchSize : Z
}.

(** ** Errors and notices *)

Inductive SqlState : Type :=
  | ERRCODE_UNDEFINED_OBJECT
  | ERRCODE_INSUFFICIENT_PRIVILEGE
  | ERRCODE_UNIQUE_VIOLATION
  | ERRCODE_INTERNAL_ERROR
  | ERRCODE_RAISE_EXCEPTION.

Record ErrorData : Type := mkError {
  sqlerrcode : SqlState;
  message : string
}.

Definition dquote : string := String (ascii_of_nat 34) EmptyString.

Definition quoted (s : string) : string :=
  String.append dquote (String.append s dquote).

(** [%d] of a C int. *)
Definition format_int (z : Z) : string := NilZero.string_of_int (Z.to_int z).

(** ** Tables of the extension

    The rows a statement of the running transaction sees, oldest first. *)

(** incremental.pipelines *)
Record PipelineRow : Type := mkPipelineRow {
  pipeline_name : string;
  pipeline_type : ascii;
  owner_id : Oid;
  source_relation : Oid;
  command_text : string
}.

(** incremental.file_list_pipelines; [max_batch_size] is nullable. *)
Record FileListPipelineRow : Type := mkFileListPipelineRow {
  fl_pipeline_name : string;
  file_pattern : string;
  fl_batched : bool;
  list_function : string;
  max_batch_size : option Z
}.

(** incremental.processed_files (pipeline_name, path) *)
Definition ProcessedFileRow : Type := (string * string)%type.

(** Modelled from the spec: the checkpoint row of a sequence pipeline, "last-processed
    sequence value"; the table and the functions of sequence.c that write it are
    not among the sources. *)
Record SequencePipelineRow : Type := mkSequencePipelineRow {
  seq_pipeline_name : string;
  sequence_id : Oid;
  last_processed_sequence_number : Z
}.

(** Modelled from the spec: the checkpoint row of a time interval pipeline,
    "last-processed interval boundary plus interval width and minimum delay";
    the table and the functions of time_interval.c that write it are not among
    the sources.  Timestamps and intervals are 64-bit microsecond counts. *)
Record TimeIntervalPipelineRow : Type := mkTimeIntervalPipelineRow {
  ti_pipeline_name : string;
  ti_batched : bool;
  last_processed_time : Z;
  time_interval : Z;
  min_delay : Z
}.

(** The argument a user command is executed with: one text, or one text array. *)
Inductive SpiArg : Type :=
  | TextArg (path : string)
  | TextArrayArg (paths : list string).

(** ** Backend state *)

Record Backend : Type := mkBackend {
  CurrentUserId : Oid;
  SecurityRestrictionContext : Z;
  pipelines : list PipelineRow;
  file_list_pipelines : list FileListPipelineRow;
  processed_files : list ProcessedFileRow;
  sequence_pipelines : list SequencePipelineRow;
  time_interval_pipelines : list TimeIntervalPipelineRow;
  notices : list string;
  executed : list (string * SpiArg)
}.

Definition set_identity (u : Oid) (c : Z) (st : Backend) : Backend :=
  mkBackend u c (pipelines st) (file_list_pipelines st) (processed_files st)
            (sequence_pipelines st) (time_interval_pipelines st)
            (notices st) (executed st).

Definition set_pipelines (rows : list PipelineRow) (st : Backend) : Backend :=
  mkBackend (CurrentUserId st) (SecurityRestrictionContext st) rows
            (file_list_pipelines st) (processed_files st)
            (sequence_pipelines st) (time_interval_pipelines st)
            (notices st) (executed st).

Definition set_file_list_pipelines (rows : list FileListPipelineRow) (st : Backend) : Backend :=
  mkBackend (CurrentUserId st) (SecurityRestrictionContext st) (pipelines st)
            rows (processed_files st)
            (sequence_pipelines st) (time_interval_pipelines st)
            (notices st) (executed st).

Definition set_processed_files (rows : list ProcessedFileRow) (st : Backend) : Backend :=
  mkBackend (CurrentUserId st) (SecurityRestrictionContext st) (pipelines st)
            (file_list_pipelines st) rows
            (sequence_pipelines st) (time_interval_pipelines st)
            (notices st) (executed st).

Definition set_sequence_pipelines (rows : list SequencePipelineRow) (st : Backend) : Backend :=
  mkBackend (CurrentUserId st) (SecurityRestrictionContext st) (pipelines st)
            (file_list_pipelines st) (processed_files st)
            rows (time_interval_pipelines st)
            (notices st) (executed st).

Definition set_time_interval_pipelines (rows : list TimeIntervalPipelineRow) (st : Backend) : Backend :=
  mkBackend (CurrentUserId st) (SecurityRestrictionContext st) (pipelines st)
            (file_list_pipelines st) (processed_files st)
            (sequence_pipelines st) rows
            (notices st) (executed st).

Definition add_notice (msg : string) (st : Backend) : Backend :=
  mkBackend (CurrentUserId st) (SecurityRestrictionContext st) (pipelines st)
            (file_list_pipelines st) (processed_files st)
            (sequence_pipelines st) (time_interval_pipelines st)
            (notices st ++ [msg]) (executed st).

Definition add_executed (cmd : string) (arg : SpiArg) (st : Backend) : Backend :=
  mkBackend (CurrentUserId st) (SecurityRestrictionContext st) (pipelines st)
            (file_list_pipelines st) (processed_files st)
            (sequence_pipelines st) (time_interval_pipelines st)
            (notices st) (executed st ++ [(cmd, arg)]).

(** ** The monad of backend code *)

Inductive Outcome (A : Type) : Type :=
  | Ok (a : A) (st : Backend)           (* the function returned *)
  | Raise (e : ErrorData) (st : Backend) (* ereport(ERROR): longjmp out, state as of the raise *)
  | Undefined                            (* behaviour C leaves undefined *)
  | OutOfFuel.                           (* the loop bound of the model was reached *)

Arguments Ok {A} a st.
Arguments Raise {A} e st.
Arguments Undefined {A}.
Arguments OutOfFuel {A}.

Definition M (A : Type) : Type := Backend -> Outcome A.

Definition ret {A : Type} (a : A) : M A := fun st => Ok a st.

Definition bind {A B : Type} (m : M A) (k : A -> M B) : M B :=
  fun st =>
    match m st with
    | Ok a st' => k a st'
    | Raise e st' => Raise e st'
    | Undefined => Undefined
    | OutOfFuel => OutOfFuel
    end.

Declare Scope backend_scope.
Delimit Scope backend_scope with backend.

Notation "x <- m ;; k" := (bind m (fun x => k))
  (at level 61, m at next level, right associativity) : backend_scope.
Notation "m ;; k" := (bind m (fun _ => k))
  (at level 61, right associativity) : backend_scope.

Open Scope backend_scope.

Definition ereport_ERROR {A : Type} (code : SqlState) (msg : string) : M A :=
  fun st => Raise (mkError code msg) st.

(** [elog(ERROR, ...)]: an internal error. *)
Definition elog_ERROR {A : Type} (msg : string) : M A :=
  ereport_ERROR ERRCODE_INTERNAL_ERROR msg.

Definition ereport_NOTICE (msg : string) : M unit :=
  fun st => Ok tt (add_notice msg st).

Definition GetUserIdAndSecContext : M (Oid * Z) :=
  fun st => Ok (CurrentUserId st, SecurityRestrictionContext st) st.

Definition SetUserIdAndSecContext (userid : Oid) (sec_context : Z) : M unit :=
  fun st => Ok tt (set_identity userid sec_context st).

Definition GetUserId : M Oid := fun st => Ok (CurrentUserId st) st.

(** ** Statements executed through SPI

    Each query text of the sources is modelled by what it does to the rows.
    The value returned is the tuple table, or [SPI_processed] for a statement
    that returns no rows. *)

Definition unique_violation {A : Type} : M A :=
  ereport_ERROR ERRCODE_UNIQUE_VIOLATION "duplicate key value violates unique constraint".

(** select pipeline_type, owner_id, source_relation, command
    from incremental.pipelines where pipeline_name = $1 *)
Definition select_pipeline (name : string) : M (list PipelineRow) :=
  fun st => Ok (filter (fun r => String.eqb (pipeline_name r) name) (pipelines st)) st.

(** Modelled from the spec: the declaration of incremental.pipelines is not among
    the sources; "descriptor table (name unique key)", so an insert of a taken
    name fails inside SPI.

    insert into incremental.pipelines
    (pipeline_name, pipeline_type, owner_id, source_relation, command)
    values ($1, $2, $3, $4, $5) *)
Definition insert_pipeline (row : PipelineRow) : M Z :=
  fun st =>
    if existsb (fun r => String.eqb (pipeline_name r) (pipeline_name row)) (pipelines st)
    then unique_violation st
    else Ok 1 (set_pipelines (pipelines st ++ [row]) st).

(** delete from incremental.pipelines where pipeline_name = $1

    Only the statement's own table is modelled; the referential actions of the
    table declarations are not among the sources. *)
Definition delete_pipeline (name : string) : M Z :=
  fun st =>
    let gone := filter (fun r => String.eqb (pipeline_name r) name) (pipelines st) in
    let kept := filter (fun r => negb (String.eqb (pipeline_name r) name)) (pipelines st) in
    Ok (list_length gone) (set_pipelines kept st).

(** Modelled from the spec: the declaration of incremental.file_list_pipelines is
    not among the sources; "per-kind checkpoint table (name unique key)".

    insert into incremental.file_list_pipelines
    (pipeline_name, file_pattern, batched, list_function, max_batch_size)
    values ($1, $2, $3, $4, $5) *)
Definition insert_file_list_pipeline (row : FileListPipelineRow) : M Z :=
  fun st =>
    if existsb (fun r => String.eqb (fl_pipeline_name r) (fl_pipeline_name row))
               (file_list_pipelines st)
    then unique_violation st
    else Ok 1 (set_file_list_pipelines (file_list_pipelines st ++ [row]) st).

(** select batched, list_function, file_pattern, max_batch_size
    from incremental.file_list_pipelines where pipeline_name = $1 for update

    The row lock taken by [for update] orders concurrent backends and is not
    part of this sequential model. *)
Definition select_file_list_pipeline (name : string) : M (list FileListPipelineRow) :=
  fun st =>
    Ok (filter (fun r => String.eqb (fl_pipeline_name r) name) (file_list_pipelines st)) st.

(** [l left join r on cond]: every row of [l], paired with each row of [r] that
    satisfies the condition, or with NULLs when none does. *)
Definition left_join {A B : Type} (cond : A -> B -> bool) (l : list A) (r : list B)
  : list (A * option B) :=
  flat_map (fun a =>
              match filter (cond a) r with
              | [] => [(a, None)]
              | matches => map (fun b => (a, Some b)) matches
              end) l.

Definition is_null {B : Type} (o : option B) : bool :=
  match o with None => true | Some _ => false end.

(** The join condition of the unprocessed-files query:
    pipeline_name = $1 and list.path = proc.path *)
Definition processed_as (name : string) (path : string) (proc : ProcessedFileRow) : bool :=
  String.eqb (fst proc) name && String.eqb path (snd proc).

(** Modelled from the spec: the declaration of incremental.processed_files is not
    among the sources; "processed-item log (composite key: name + item)", so an
    insert of a pair that is already there fails inside SPI.

    insert into incremental.processed_files (pipeline_name, path) values ($1, $2) *)
Definition insert_processed_file (name path : string) : M Z :=
  fun st =>
    if existsb (processed_as name path) (processed_files st)
    then unique_violation st
    else Ok 1 (set_processed_files (processed_files st ++ [(name, path)]) st).

(** delete from incremental.processed_files where pipeline_name = $1 *)
Definition delete_processed_files (name : string) : M Z :=
  fun st =>
    let gone := filter (fun r => String.eqb (fst r) name) (processed_files st) in
    let kept := filter (fun r => negb (String.eqb (fst r) name)) (processed_files st) in
    Ok (list_length gone) (set_processed_files kept st).

(** ** Cells of a List from an offset, and the array built from them *)

(** [for_each_from(cell, lst, N)] requires [0 <= N <= list_length(lst)]. *)
Definition for_each_from {A : Type} (lst : list A) (N : Z) : option (list A) :=
  if (0 <=? N) && (N <=? list_length lst)
  then Some (skipn (Z.to_nat N) lst)
  else None.

(** The first loop of ExecuteBatchedFileListPipeline: [fileDatums[datumIndex]]
    is written for consecutive indexes from 0, so the array is the list of the
    paths written so far. *)
Fixpoint collect_file_datums (cells : list string) (maxBatch datumIndex : Z)
         (fileDatums : list string) : list string :=
  match cells with
  | [] => fileDatums
  | path :: rest =>
      let fileDatums := fileDatums ++ [path] in
      let datumIndex := int_add datumIndex 1 in
      if (0 <? maxBatch) && (datumIndex =? maxBatch)
      then fileDatums
      else collect_file_datums rest maxBatch datumIndex fileDatums
  end.

(** [construct_array(elems, nelems, ...)] reads the first [nelems] elements. *)
Definition construct_array (elems : list string) (nelems : Z) : list string :=
  firstn (Z.to_nat nelems) elems.

Section Engine.

Set Default Proof Using "Type".

(** ** What the sources call outside themselves *)

(** [superuser_arg(roleid)]: the role catalogue's answer. *)
Variable superuser_arg : Oid -> bool.

(** The rows a list function returns for a pattern, by the function's name.
    The function is taken to return paths that are not NULL, without raising
    and without writing: GetUnprocessedFileList hands every value to
    TextDatumGetCString without a test for NULL. *)
Variable call_list_function : string -> string -> list string.

(** What executing a user command with one argument does: [None] when it
    completes, the error it raises otherwise.  The command is taken to work on
    the user's own relations: it leaves the tables of the extension and the
    identity alone. *)
Variable user_command : string -> SpiArg -> option ErrorData.

(** sequence.c, time_interval.c and cron.c are not among the sources. *)
Variable ExecuteSequenceRangePipeline : string -> string -> M unit.
Variable ExecuteTimeIntervalPipeline : string -> string -> M unit.
Variable UnscheduleCronJob : string -> M unit.

Definition superuser : M bool :=
  fun st => Ok (superuser_arg (CurrentUserId st)) st.

(** [SPI_execute_with_args(command, 1, argTypes, argValues, ...)] on a user
    command: the call is recorded, then the command completes or raises. *)
Definition SPI_execute_command (cmd : string) (arg : SpiArg) : M unit :=
  fun st =>
    let st := add_executed cmd arg st in
    match user_command cmd arg with
    | None => Ok tt st
    | Some e => Raise e st
    end.

(** ** file_list.c *)

Definition cannot_be_found {A : Type} (name : string) : M A :=
  ereport_ERROR ERRCODE_UNDEFINED_OBJECT
    (String.append "pipeline " (String.append (quoted name) " cannot be found")).

Definition InitializeFileListPipelineState (name pattern : string) (isBatched : bool)
           (listFunction : string) (maxBatch : Z) : M unit :=
  saved <- GetUserIdAndSecContext ;;
  SetUserIdAndSecContext BOOTSTRAP_SUPERUSERID SECURITY_LOCAL_USERID_CHANGE ;;
  _ <- insert_file_list_pipeline
         (mkFileListPipelineRow name pattern isBatched listFunction
            (if 0 <? maxBatch then Some maxBatch else None)) ;;
  SetUserIdAndSecContext (fst saved) (snd saved).

(** select list.path from <listFunction>($2) as list(path)
    left join incremental.processed_files proc
    on (pipeline_name = $1 and list.path = proc.path)
    where proc.path is null

    [proc.path] is null in a joined row exactly when the row has no match.
    The query has no ORDER BY; the rows are taken in the order of the list
    function's output. *)
Definition select_unprocessed_paths (name listFunction filePattern : string)
  : M (list string) :=
  fun st =>
    Ok (map fst
            (filter (fun row => is_null (snd row))
                    (left_join (processed_as name)
                               (call_list_function listFunction filePattern)
                               (processed_files st)))) st.

Definition GetUnprocessedFileList (name listFunction filePattern : string)
  : M (list string) :=
  saved <- GetUserIdAndSecContext ;;
  SetUserIdAndSecContext BOOTSTRAP_SUPERUSERID SECURITY_LOCAL_USERID_CHANGE ;;
  rows <- select_unprocessed_paths name listFunction filePattern ;;
  let fileList := fold_left lappend rows [] in
  SetUserIdAndSecContext (fst saved) (snd saved) ;;
  ret fileList.

Definition GetUnprocessedFilesForPipeline (name : string) : M FileList :=
  saved <- GetUserIdAndSecContext ;;
  SetUserIdAndSecContext BOOTSTRAP_SUPERUSERID SECURITY_LOCAL_USERID_CHANGE ;;
  rows <- select_file_list_pipeline name ;;
  match rows with
  | [] => cannot_be_found name
  | row :: _ =>
      let maxBatch := match max_batch_size row with
                      | Some v => v
                      | None => -1
                      end in
      SetUserIdAndSecContext (fst saved) (snd saved) ;;
      unprocessed <- GetUnprocessedFileList name (list_function row) (file_pattern row) ;;
      ret (mkFileList unprocessed (fl_batched row) maxBatch)
  end.

Definition InsertProcessedFile (name path : string) : M unit :=
  saved <- GetUserIdAndSecContext ;;
  SetUserIdAndSecContext BOOTSTRAP_SUPERUSERID SECURITY_LOCAL_USERID_CHANGE ;;
  SPI_processed <- insert_processed_file name path ;;
  if SPI_processed <=? 0
  then cannot_be_found name
  else SetUserIdAndSecContext (fst saved) (snd saved).

Definition RemoveProcessedFileList (name : string) : M unit :=
  saved <- GetUserIdAndSecContext ;;
  SetUserIdAndSecContext BOOTSTRAP_SUPERUSERID SECURITY_LOCAL_USERID_CHANGE ;;
  SPI_processed <- delete_processed_files name ;;
  if SPI_processed <=? 0
  then cannot_be_found name
  else SetUserIdAndSecContext (fst saved) (snd saved).

(** The snapshot pushed and popped around the command is not modelled. *)
Definition ExecuteFileListPipelineForFile (name cmd path : string) : M unit :=
  SPI_execute_command cmd (TextArg path).

Definition ExecuteFileListPipelineForFileArray (name cmd : string)
           (filePaths : list string) : M unit :=
  SPI_execute_command cmd (TextArrayArg filePaths).

(** The second loop of ExecuteBatchedFileListPipeline. *)
Fixpoint insert_processed_from (name : string) (cells : list string)
         (maxBatch fileIndex : Z) : M unit :=
  match cells with
  | [] => ret tt
  | path :: rest =>
      InsertProcessedFile name path ;;
      let fileIndex := int_add fileIndex 1 in
      if (0 <? maxBatch) && (fileIndex =? maxBatch)
      then ret tt
      else insert_processed_from name rest maxBatch fileIndex
  end.

Definition ExecuteBatchedFileListPipeline (name cmd : string) (fileList : FileList)
           (offset : Z) : M unit :=
  let fileCount := int_sub (list_length (files fileList)) offset in
  let fileCount :=
    if (0 <? maxBatchSize fileList) && (maxBatchSize fileList <? fileCount)
    then maxBatchSize fileList
    else fileCount in
  match for_each_from (files fileList) offset with
  | None => fun _ => Undefined
  | Some cells =>
      let fileDatums := collect_file_datums cells (maxBatchSize fileList) 0 [] in
      let filesArray := construct_array fileDatums fileCount in
      ereport_NOTICE
        (String.append "pipeline "
           (String.append name
              (String.append ": processing file list pipeline for "
                 (String.append (format_int fileCount) " files")))) ;;
      ExecuteFileListPipelineForFileArray name cmd filesArray ;;
      insert_processed_from name cells (maxBatchSize fileList) 0
  end.

(** The do-while loop of ExecuteFileListPipeline, from a given offset. *)
Fixpoint batched_loop (fuel : nat) (name cmd : string) (fileList : FileList)
         (offset : Z) : M unit :=
  match fuel with
  | O => fun _ => OutOfFuel
  | S fuel =>
      ExecuteBatchedFileListPipeline name cmd fileList offset ;;
      let offset := int_add offset (maxBatchSize fileList) in
      if (0 <? maxBatchSize fileList) && (offset <? list_length (files fileList))
      then batched_loop fuel name cmd fileList offset
      else ret tt
  end.

(** The foreach loop of ExecuteFileListPipeline. *)
Fixpoint foreach_file (name cmd : string) (cells : list string) : M unit :=
  match cells with
  | [] => ret tt
  | path :: rest =>
      ereport_NOTICE
        (String.append "pipeline "
           (String.append name
              (String.append ": processing file list pipeline for " path))) ;;
      ExecuteFileListPipelineForFile name cmd path ;;
      InsertProcessedFile name path ;;
      foreach_file name cmd rest
  end.

Definition ExecuteFileListPipeline (fuel : nat) (name cmd : string) : M unit :=
  fileList <- GetUnprocessedFilesForPipeline name ;;
  match files fileList with
  | [] =>
      ereport_NOTICE
        (String.append "pipeline " (String.append name ": no files to process"))
  | _ :: _ =>
      if batched fileList
      then batched_loop fuel name cmd fileList 0
      else foreach_file name cmd (files fileList)
  end.

(** ** What pipeline.c calls in sequence.c and time_interval.c *)

(** Modelled from the spec: sequence.c is not among the sources.  "atomically sets
    the checkpoint to the delta's upper bound": the last-processed sequence value
    of the pipeline's row becomes the given value. *)
Definition UpdateLastProcessedSequenceNumber (name : string) (lastSequenceNumber : Z)
  : M unit :=
  fun st =>
    Ok tt (set_sequence_pipelines
             (map (fun r =>
                     if String.eqb (seq_pipeline_name r) name
                     then mkSequencePipelineRow (seq_pipeline_name r) (sequence_id r)
                                                lastSequenceNumber
                     else r)
                  (sequence_pipelines st)) st).

(** Modelled from the spec: time_interval.c is not among the sources.  "inserts the
    descriptor and the kind's initial checkpoint state", "its initial value (the
    configured start time)": a new checkpoint row whose last-processed boundary
    is the start time given at creation. *)
Definition InitializeTimeRangePipelineState (name : string) (isBatched : bool)
           (startTime timeInterval minDelay : Z) : M unit :=
  fun st =>
    Ok tt (set_time_interval_pipelines
             (time_interval_pipelines st
                ++ [mkTimeIntervalPipelineRow name isBatched startTime timeInterval minDelay])
             st).

(** Modelled from the spec: time_interval.c is not among the sources.  "atomically
    sets the checkpoint to the delta's upper bound": the last-processed boundary
    of the pipeline's row becomes the given value. *)
Definition UpdateLastProcessedTimeInterval (name : string) (lastProcessedTime : Z)
  : M unit :=
  fun st =>
    Ok tt (set_time_interval_pipelines
             (map (fun r =>
                     if String.eqb (ti_pipeline_name r) name
                     then mkTimeIntervalPipelineRow (ti_pipeline_name r) (ti_batched r)
                                                    lastProcessedTime
                                                    (time_interval r) (min_delay r)
                     else r)
                  (time_interval_pipelines st)) st).

(** ** pipeline.c *)

Definition InsertPipeline (name : string) (type : PipelineType) (sourceRelation : Oid)
           (cmd : string) : M unit :=
  saved <- GetUserIdAndSecContext ;;
  SetUserIdAndSecContext BOOTSTRAP_SUPERUSERID SECURITY_LOCAL_USERID_CHANGE ;;
  _ <- insert_pipeline (mkPipelineRow name type (fst saved) sourceRelation cmd) ;;
  SetUserIdAndSecContext (fst saved) (snd saved).

Definition ReadPipelineDesc (name : string) : M PipelineDesc :=
  saved <- GetUserIdAndSecContext ;;
  SetUserIdAndSecContext BOOTSTRAP_SUPERUSERID SECURITY_LOCAL_USERID_CHANGE ;;
  rows <- select_pipeline name ;;
  match rows with
  | [] =>
      ereport_ERROR ERRCODE_UNDEFINED_OBJECT
        (String.append "no such pipeline named " (quoted name))
  | row :: _ =>
      let pipelineDesc :=
        mkPipelineDesc name (pipeline_type row) (owner_id row) (source_relation row)
                       (command_text row) in
      SetUserIdAndSecContext (fst saved) (snd saved) ;;
      ret pipelineDesc
  end.

Definition permission_denied {A : Type} (name : string) : M A :=
  ereport_ERROR ERRCODE_INSUFFICIENT_PRIVILEGE
    (String.append "permission denied for pipeline " name).

Definition EnsurePipelineOwner (name : string) (owner : Oid) : M unit :=
  isSuperuser <- superuser ;;
  if isSuperuser
  then ret tt
  else
    userId <- GetUserId ;;
    if negb (owner =? userId)
    then permission_denied name
    else ret tt.

(** [%c] of a char.  The message is read as a C string, which the NUL
    character ends. *)
Definition format_char (c : ascii) : string :=
  if Ascii.eqb c Ascii.zero then EmptyString else String c EmptyString.

Definition unknown_pipeline_type {A : Type} (type : PipelineType) : M A :=
  elog_ERROR (String.append "unknown pipeline type: " (format_char type)).

Definition ExecutePipeline (name : string) (type : PipelineType) (cmd : string) : M unit :=
  if Ascii.eqb type SEQUENCE_RANGE_PIPELINE then ExecuteSequenceRangePipeline name cmd
  else if Ascii.eqb type TIME_INTERVAL_PIPELINE then ExecuteTimeIntervalPipeline name cmd
  else unknown_pipeline_type type.

Definition ResetPipeline (name : string) (type : PipelineType) : M unit :=
  if Ascii.eqb type SEQUENCE_RANGE_PIPELINE then UpdateLastProcessedSequenceNumber name 0
  else if Ascii.eqb type TIME_INTERVAL_PIPELINE then UpdateLastProcessedTimeInterval name 0
  else unknown_pipeline_type type.

Definition DeletePipeline (name : string) : M unit :=
  saved <- GetUserIdAndSecContext ;;
  SetUserIdAndSecContext BOOTSTRAP_SUPERUSERID SECURITY_LOCAL_USERID_CHANGE ;;
  _ <- delete_pipeline name ;;
  SetUserIdAndSecContext (fst saved) (snd saved).

Definition GetCronJobNameForPipeline (name : string) : string :=
  String.append "pipeline:" name.

Definition incremental_execute_pipeline (name : string) : M unit :=
  pipelineDesc <- ReadPipelineDesc name ;;
  EnsurePipelineOwner name (ownerId pipelineDesc) ;;
  ExecutePipeline name (pipelineType pipelineDesc) (command pipelineDesc).

Definition incremental_reset_pipeline (name : string) : M unit :=
  pipelineDesc <- ReadPipelineDesc name ;;
  EnsurePipelineOwner name (ownerId pipelineDesc) ;;
  ResetPipeline name (pipelineType pipelineDesc).

Definition incremental_drop_pipeline (name : string) : M unit :=
  pipelineDesc <- ReadPipelineDesc name ;;
  EnsurePipelineOwner name (ownerId pipelineDesc) ;;
  DeletePipeline name ;;
  UnscheduleCronJob (GetCronJobNameForPipeline name).

(** ** pipeline.c: the entry points that create a pipeline

    An argument of a function that is not strict is [None] when it is NULL. *)

(** pg_class.h, dependency.h, pg_type.dat and postgres_ext.h *)
Definition RELKIND_SEQUENCE : ascii := "S"%char.
Definition RELKIND_RELATION : ascii := "r"%char.
Definition RELKIND_FOREIGN_TABLE : ascii := "f"%char.
Definition RELKIND_PARTITIONED_TABLE : ascii := "p"%char.
Definition DEPENDENCY_AUTO : ascii := "a"%char.
Definition INT8OID : Oid := 20.
Definition TIMESTAMPTZOID : Oid := 1184.
Definition InvalidOid : Oid := 0.

(** The error code utils/errcodes.h gives to a feature that is not supported. *)
Variable ERRCODE_FEATURE_NOT_SUPPORTED : SqlState.

(** Catalogue lookups of PostgreSQL: the kind of a relation, the table and
    column that own a sequence through a dependency of the given type, and the
    name of a relation (NULL when there is none). *)
Variable get_rel_relkind : Oid -> ascii.
Variable sequenceIsOwned : Oid -> ascii -> option (Oid * Z).
Variable get_rel_name : Oid -> option string.

(** [quote_literal_cstr] of PostgreSQL. *)
Variable quote_literal_cstr : string -> string.

(** sequence.c, query.c and cron.c are not among the sources. *)
Variable FindSequenceForRelation : Oid -> M Oid.
Variable InitializeSequencePipelineState : string -> Oid -> M unit.
Variable Query : Type.
Variable ParseQuery : string -> list Oid -> M Query.
Variable DeparseQuery : Query -> M string.
Variable ScheduleCronJob : string -> string -> string -> M Z.

(** [%s] of a C string that may be NULL. *)
Definition format_cstring (s : option string) : string :=
  match s with
  | Some text => text
  | None => "(null)"%string
  end.

Definition GetCronCommandForPipeline (name : string) : string :=
  String.append "call incremental.execute_pipeline("
                (String.append (quote_literal_cstr name) ")").

(** The tail the two entry points share: the optional first execution and the
    optional cron job. *)
Definition execute_and_schedule (name : string) (type : PipelineType)
           (sanitizedCommand : string) (executeImmediately : bool)
           (schedule : option string) : M unit :=
  (if executeImmediately
   then ExecutePipeline name type sanitizedCommand
   else ret tt) ;;
  match schedule with
  | Some cronExpression =>
      let jobName := GetCronJobNameForPipeline name in
      let cronCommand := GetCronCommandForPipeline name in
      jobId <- ScheduleCronJob jobName cronExpression cronCommand ;;
      ereport_NOTICE
        (String.append "pipeline "
           (String.append name
              (String.append ": scheduled cron job with ID "
                 (String.append (format_int jobId)
                    (String.append " and schedule " cronExpression)))))
  | None => ret tt
  end.

(** The switch on the relation kind: the source relation and the sequence. *)
Definition resolve_sequence (sequenceId : Oid) : M (Oid * Oid) :=
  let relkind := get_rel_relkind sequenceId in
  if Ascii.eqb relkind RELKIND_SEQUENCE
  then
    match sequenceIsOwned sequenceId DEPENDENCY_AUTO with
    | Some (sourceRelationId, columnNumber) => ret (sourceRelationId, sequenceId)
    | None =>
        ereport_ERROR ERRCODE_FEATURE_NOT_SUPPORTED
          "enly sequences that are owned by a table are supported"
    end
  else if Ascii.eqb relkind RELKIND_RELATION
          || Ascii.eqb relkind RELKIND_FOREIGN_TABLE
          || Ascii.eqb relkind RELKIND_PARTITIONED_TABLE
  then
    let sourceRelationId := sequenceId in
    sequenceId <- FindSequenceForRelation sourceRelationId ;;
    ret (sourceRelationId, sequenceId)
  else
    ereport_ERROR ERRCODE_FEATURE_NOT_SUPPORTED
      (String.append (format_cstring (get_rel_name sequenceId))
                     " is not a table or sequence").

Definition incremental_create_sequence_pipeline
           (pipeline_name_arg : option string) (sequence_name_arg : option Oid)
           (command_arg schedule_arg : option string)
           (execute_immediately_arg : option bool) : M unit :=
  match pipeline_name_arg with
  | None => ereport_ERROR ERRCODE_INTERNAL_ERROR "pipeline_name cannot be NULL"
  | Some pipelineName =>
  match sequence_name_arg with
  | None => ereport_ERROR ERRCODE_INTERNAL_ERROR "sequence_name cannot be NULL"
  | Some sequenceId =>
  match command_arg with
  | None => ereport_ERROR ERRCODE_INTERNAL_ERROR "command cannot be NULL"
  | Some cmd =>
      let schedule := schedule_arg in
      let executeImmediately :=
        match execute_immediately_arg with Some b => b | None => false end in
      resolved <- resolve_sequence sequenceId ;;
      let sourceRelationId := fst resolved in
      let sequenceId := snd resolved in
      parsedQuery <- ParseQuery cmd [INT8OID; INT8OID] ;;
      sanitizedCommand <- DeparseQuery parsedQuery ;;
      InsertPipeline pipelineName SEQUENCE_RANGE_PIPELINE sourceRelationId
                     sanitizedCommand ;;
      InitializeSequencePipelineState pipelineName sequenceId ;;
      execute_and_schedule pipelineName SEQUENCE_RANGE_PIPELINE sanitizedCommand
                           executeImmediately schedule
  end end end.

Definition incremental_create_time_interval_pipeline
           (pipeline_name_arg : option string) (time_interval_arg : option Z)
           (command_arg : option string) (batched_arg : option bool)
           (start_time_arg : option Z) (relation_arg : option Oid)
           (schedule_arg : option string) (min_delay_arg : option Z)
           (execute_immediately_arg : option bool) : M unit :=
  match pipeline_name_arg with
  | None => ereport_ERROR ERRCODE_INTERNAL_ERROR "pipeline_name cannot be NULL"
  | Some pipelineName =>
  match time_interval_arg with
  | None => ereport_ERROR ERRCODE_INTERNAL_ERROR "time_interval cannot be NULL"
  | Some timeInterval =>
  match command_arg with
  | None => ereport_ERROR ERRCODE_INTERNAL_ERROR "command cannot be NULL"
  | Some cmd =>
  match min_delay_arg with
  | None => ereport_ERROR ERRCODE_INTERNAL_ERROR "min_delay cannot be NULL"
  | Some minDelay =>
      let isBatched := match batched_arg with Some b => b | None => false end in
      let startTime := match start_time_arg with Some t => t | None => 0 end in
      let relationId := match relation_arg with Some r => r | None => InvalidOid end in
      let schedule := schedule_arg in
      let executeImmediately :=
        match execute_immediately_arg with Some b => b | None => false end in
      if negb isBatched && is_null start_time_arg
      then
        ereport_ERROR ERRCODE_FEATURE_NOT_SUPPORTED
          "start_time is required for non-batched pipelines"
      else
        parsedQuery <- ParseQuery cmd [TIMESTAMPTZOID; TIMESTAMPTZOID] ;;
        sanitizedCommand <- DeparseQuery parsedQuery ;;
        InsertPipeline pipelineName TIME_INTERVAL_PIPELINE relationId sanitizedCommand ;;
        InitializeTimeRangePipelineState pipelineName isBatched startTime timeInterval
                                         minDelay ;;
        execute_and_schedule pipelineName TIME_INTERVAL_PIPELINE sanitizedCommand
                             executeImmediately schedule
  end end end end.

(** ** A statement and its transaction

    None of the functions above catches an error or commits.  An ERROR
    therefore unwinds to the statement that called them, and PostgreSQL rolls
    the statement's transaction back: the rows and the identity are those of
    the statement's start.  What was sent to the client or run outside the
    tables stays in the record. *)
Definition abort_transaction (before raised : Backend) : Backend :=
  mkBackend (CurrentUserId before) (SecurityRestrictionContext before)
            (pipelines before) (file_list_pipelines before) (processed_files before)
            (sequence_pipelines before) (time_interval_pipelines before)
            (notices raised) (executed raised).

Definition run_statement {A : Type} (m : M A) (st : Backend) : option Backend :=
  match m st with
  | Ok _ st' => Some st'
  | Raise _ st' => Some (abort_transaction st st')
  | Undefined => None
  | OutOfFuel => None
  end.

(** ** Vocabulary of the specification *)

(** The state rows of a pipeline, as the queries pick them: the first match. *)
Definition pipeline_row (name : string) (st : Backend) : option PipelineRow :=
  hd_error (filter (fun r => String.eqb (pipeline_name r) name) (pipelines st)).

Definition file_list_state (name : string) (st : Backend) : option FileListPipelineRow :=
  hd_error (filter (fun r => String.eqb (fl_pipeline_name r) name) (file_list_pipelines st)).

(** The enumerator's current output for the pipeline's file pattern. *)
Definition enumerated (row : FileListPipelineRow) : list string :=
  call_list_function (list_function row) (file_pattern row).

(** The specification's delta: the enumerated items, in the enumerator's order,
    that have no ProcessedLog entry under the pipeline's name. *)
Definition set_difference (name : string) (current : list string)
           (log : list ProcessedFileRow) : list string :=
  filter (fun path => negb (existsb (processed_as name path) log)) current.

(** [maxBatchSize] as GetUnprocessedFilesForPipeline reads it. *)
Definition read_max_batch_size (row : FileListPipelineRow) : Z :=
  match max_batch_size row with
  | Some v => v
  | None => -1
  end.

(** Items of [delta] at offsets [lo .. hi-1]. *)
Definition items_at (delta : list string) (lo hi : nat) : list string :=
  firstn (hi - lo) (skipn lo delta).

(** Chunk [i] of size [k]: offsets [i*k .. min((i+1)*k, n) - 1]. *)
Definition chunk (k : nat) (delta : list string) (i : nat) : list string :=
  items_at delta (i * k) (Nat.min ((i + 1) * k) (List.length delta)).

Definition ceil_div (n k : nat) : nat := ((n + k - 1) / k)%nat.

Definition chunks (k : nat) (delta : list string) : list (list string) :=
  map (chunk k delta) (seq 0 (ceil_div (List.length delta) k)).

(** One unit of work of an execution: what is announced, the argument of the
    user command, and the items logged once the command has completed. *)
Record WorkUnit : Type := mkWorkUnit {
  unit_notice : string;
  unit_arg : SpiArg;
  unit_paths : list string
}.

Definition file_unit (name path : string) : WorkUnit :=
  mkWorkUnit
    (String.append "pipeline "
       (String.append name (String.append ": processing file list pipeline for " path)))
    (TextArg path) [path].

Definition chunk_unit (name : string) (items : list string) : WorkUnit :=
  mkWorkUnit
    (String.append "pipeline "
       (String.append name
          (String.append ": processing file list pipeline for "
             (String.append (format_int (list_length items)) " files"))))
    (TextArrayArg items) items.

(** The units the specification prescribes for a delta: one per item when not
    batched; the chunks of size [maxBatchSize] when batched and the size is
    positive; otherwise the whole delta as one chunk. *)
Definition work_units (name : string) (fileList : FileList) : list WorkUnit :=
  if batched fileList
  then if 0 <? maxBatchSize fileList
       then map (chunk_unit name) (chunks (Z.to_nat (maxBatchSize fileList)) (files fileList))
       else [chunk_unit name (files fileList)]
  else map (file_unit name) (files fileList).

Definition paths_of (units : list WorkUnit) : list string :=
  List.concat (map unit_paths units).

(** The specification's reading of one unit: announce, run the command, then
    append every item of the unit to the ProcessedLog; units strictly in order. *)
Fixpoint insert_paths (name : string) (paths : list string) : M unit :=
  match paths with
  | [] => ret tt
  | path :: rest => InsertProcessedFile name path ;; insert_paths name rest
  end.

Definition run_unit (name cmd : string) (u : WorkUnit) : M unit :=
  ereport_NOTICE (unit_notice u) ;;
  SPI_execute_command cmd (unit_arg u) ;;
  insert_paths name (unit_paths u).

Fixpoint run_units (name cmd : string) (units : list WorkUnit) : M unit :=
  match units with
  | [] => ret tt
  | u :: rest => run_unit name cmd u ;; run_units name cmd rest
  end.

(** The backend after the given units have completed. *)
Definition after_units (name cmd : string) (units : list WorkUnit) (st : Backend) : Backend :=
  mkBackend (CurrentUserId st) (SecurityRestrictionContext st)
            (pipelines st) (file_list_pipelines st)
            (processed_files st ++ map (pair name) (paths_of units))
            (sequence_pipelines st) (time_interval_pipelines st)
            (notices st ++ map unit_notice units)
            (executed st ++ map (fun u => (cmd, unit_arg u)) units).

(** The backend when the command of [u] raises after [units] have completed. *)
Definition failed_at (name cmd : string) (units : list WorkUnit) (u : WorkUnit)
           (st : Backend) : Backend :=
  add_executed cmd (unit_arg u) (add_notice (unit_notice u) (after_units name cmd units st)).

(** The identity a function runs under between its two SetUserIdAndSecContext calls. *)
Definition elevated (st : Backend) : Backend :=
  set_identity BOOTSTRAP_SUPERUSERID SECURITY_LOCAL_USERID_CHANGE st.



(** An outcome the C code can have: it returned, or it raised. *)
Definition settled {A : Type} (o : Outcome A) : Prop :=
  match o with
  | Ok _ _ => True
  | Raise _ _ => True
  | Undefined => False
  | OutOfFuel => False
  end.

Definition no_files_notice (name : string) : string :=
  String.append "pipeline " (String.append name ": no files to process").

(** The rows ExecuteBatchedFileListPipeline takes from the cells of a List when
    its counter starts at [index]. *)
Definition batch_of (maxBatch index : Z) (cells : list string) : list string :=
  if 0 <? maxBatch then firstn (Z.to_nat (maxBatch - index)) cells else cells.


(** The backend with [paths] appended to the log of [name]. *)
Definition log_paths (name : string) (paths : list string) (st : Backend) : Backend :=
  set_processed_files (processed_files st ++ map (pair name) paths) st.

(** The descriptor ReadPipelineDesc builds from a row. *)
Definition desc_of_row (name : string) (row : PipelineRow) : PipelineDesc :=
  mkPipelineDesc name (pipeline_type row) (owner_id row) (source_relation row)
                 (command_text row).

Definition no_such_pipeline (name : string) : ErrorData :=
  mkError ERRCODE_UNDEFINED_OBJECT (String.append "no such pipeline named " (quoted name)).

Definition has_processed_files (name : string) (st : Backend) : bool :=
  existsb (fun r => String.eqb (fst r) name) (processed_files st).



(** [m] raises the given error from [st] and leaves [st] as it was. *)
Definition rejects {A : Type} (m : M A) (st : Backend) (code : SqlState)
           (msg : string) : Prop :=
  m st = Raise (mkError code msg) st.

(** What the switch of incremental_create_sequence_pipeline accepts: the
    argument is a sequence that a table owns, or a table for which
    FindSequenceForRelation finds the sequence. *)
Definition names_sequence (arg table sequence : Oid) (st : Backend) : Prop :=
  (get_rel_relkind arg = RELKIND_SEQUENCE /\
   sequence = arg /\
   exists columnNumber,
     sequenceIsOwned arg DEPENDENCY_AUTO = Some (table, columnNumber))
  \/
  (In (get_rel_relkind arg)
      [RELKIND_RELATION; RELKIND_FOREIGN_TABLE; RELKIND_PARTITIONED_TABLE] /\
   table = arg /\
   FindSequenceForRelation arg st = Ok sequence st).


(** ** Scenario data *)

Definition alice : Oid := 16384.
Definition bob : Oid := 16385.

Definition csv_files : list string := ["a.csv"; "b.csv"; "c.csv"]%string.

(** A list function that finds the three files whatever the pattern. *)
Definition list_csv (listFunction filePattern : string) : list string := csv_files.

(** A list function that yields a.csv twice. *)
Definition list_with_repeat (listFunction filePattern : string) : list string :=
  ["a.csv"; "b.csv"; "a.csv"]%string.

Definition command_completes (cmd : string) (arg : SpiArg) : option ErrorData := None.

Definition cannot_load : ErrorData :=
  mkError ERRCODE_RAISE_EXCEPTION "cannot load b.csv".

(** A command that raises whenever it is handed b.csv. *)
Definition command_fails_on_b (cmd : string) (arg : SpiArg) : option ErrorData :=
  match arg with
  | TextArg path =>
      if String.eqb path "b.csv" then Some cannot_load else None
  | TextArrayArg paths =>
      if existsb (String.eqb "b.csv") paths then Some cannot_load else None
  end.

Definition only_bootstrap_is_superuser (roleid : Oid) : bool :=
  roleid =? BOOTSTRAP_SUPERUSERID.

(** Strategies and a scheduler that only say they were reached. *)
Definition sequence_strategy (name cmd : string) : M unit :=
  ereport_NOTICE "sequence range strategy".

Definition time_strategy (name cmd : string) : M unit :=
  ereport_NOTICE "time interval strategy".

Definition unschedule (jobName : string) : M unit :=
  ereport_NOTICE (String.append "unscheduled " jobName).

Definition csv_state (isBatched : bool) (maxBatch : option Z) : FileListPipelineRow :=
  mkFileListPipelineRow "csv" "*.csv" isBatched "list_files" maxBatch.

(** A backend of [user] with one file-list pipeline, csv, and the given log. *)
Definition csv_backend (user : Oid) (isBatched : bool) (maxBatch : option Z)
           (log : list ProcessedFileRow) : Backend :=
  mkBackend user 0 [] [csv_state isBatched maxBatch] log [] [] [] [].

Definition events_row : PipelineRow :=
  mkPipelineRow "events" SEQUENCE_RANGE_PIPELINE alice 0 "select $1, $2".

(** A descriptor whose type is neither 's' nor 't', standing for a file list. *)
Definition csv_row : PipelineRow :=
  mkPipelineRow "csv" "f"%char alice 0 "select $1".

(** A backend of [user] with two descriptors owned by alice, the checkpoint of
    the sequence pipeline at 40 and the file-list state of csv. *)
Definition registry_backend (user : Oid) : Backend :=
  mkBackend user 0 [events_row; csv_row] [csv_state true (Some 2)] []
            [mkSequencePipelineRow "events" 0 40] [] [] [].

Definition empty_backend (user : Oid) : Backend :=
  mkBackend user 0 [] [] [] [] [] [] [].

Definition all_logged : list ProcessedFileRow :=
  [("csv", "a.csv"); ("csv", "b.csv"); ("csv", "c.csv")]%string.

(** A catalogue with the table orders (24576), its sequence orders_id_seq
    (24580, owned by column 1 of the table), a sequence that no table owns
    (24590) and a view (24600). *)
Definition orders_table : Oid := 24576.
Definition orders_id_seq : Oid := 24580.
Definition free_seq : Oid := 24590.
Definition orders_view : Oid := 24600.

Definition catalog_relkind (relid : Oid) : ascii :=
  if (relid =? orders_id_seq) || (relid =? free_seq) then "S"%char
  else if relid =? orders_table then "r"%char
  else "v"%char.

Definition catalog_owner (seqId : Oid) (deptype : ascii) : option (Oid * Z) :=
  if (seqId =? orders_id_seq) && Ascii.eqb deptype "a"%char
  then Some (orders_table, 1)
  else None.

Definition catalog_rel_name (relid : Oid) : option string :=
  if relid =? orders_view then Some "orders_view"%string else None.

Definition find_sequence (relid : Oid) : M Oid :=
  if relid =? orders_table
  then ret orders_id_seq
  else elog_ERROR "relation has no sequence".

Definition quote_literal (s : string) : string :=
  String.append "'" (String.append s "'").

(** The state of a new sequence pipeline: nothing processed yet. *)
Definition initialize_sequence_state (name : string) (sequenceId : Oid) : M unit :=
  fun st =>
    Ok tt (set_sequence_pipelines
             (sequence_pipelines st ++ [mkSequencePipelineRow name sequenceId 0]) st).

(** A parser whose trees are the texts, and a deparser that ends them with a
    semicolon. *)
Definition parse_query (text : string) (paramTypes : list Oid) : M string := ret text.

Definition deparse_query (parsedQuery : string) : M string :=
  ret (String.append parsedQuery ";").

(** A scheduler that hands out the job ID 7. *)
Definition schedule_cron_job (jobName schedule cronCommand : string) : M Z :=
  ereport_NOTICE (String.append "scheduled " (String.append jobName
                    (String.append " to " cronCommand))) ;;
  ret 7.

(** The scenarios reach no unsupported feature; this code stands for its
    error code. *)
Definition feature_not_supported : SqlState := ERRCODE_INTERNAL_ERROR.


(** * Properties *)

(** Forget the collaborators a statement does not mention. *)
Ltac only_needed := repeat match goal with x : _ |- _ => clear x end.

(** ** Integers and lists *)

Lemma int32_small (z : Z) :
  -2147483648 <= z <= 2147483647 -> int32 z = z.
Proof.
  intros Hz. unfold int32. rewrite Z.mod_small; lia.
Qed.

Lemma MaxListLength_value : MaxListLength = 134217727.
Proof. reflexivity. Qed.

Lemma list_length_nonneg {A : Type} (l : list A) : 0 <= list_length l.
Proof. unfold list_length. lia. Qed.

Lemma list_length_cons {A : Type} (a : A) (l : list A) :
  list_length (a :: l) = list_length l + 1.
Proof. unfold list_length. simpl List.length. lia. Qed.

Lemma fold_left_lappend {A : Type} (rows : list A) :
  forall l, fold_left lappend rows l = l ++ rows.
Proof.
  induction rows as [|a rows IH]; intros l; simpl.
  - now rewrite app_nil_r.
  - rewrite IH. unfold lappend. now rewrite <- app_assoc.
Qed.

Lemma existsb_false_filter {A : Type} (f : A -> bool) (l : list A) :
  existsb f l = false <-> filter f l = [].
Proof.
  induction l as [|a l IH]; simpl.
  - tauto.
  - destruct (f a); simpl.
    + split; discriminate.
    + exact IH.
Qed.

Lemma filter_negb_all {A : Type} (f : A -> bool) (l : list A) :
  existsb f l = false -> filter (fun a => negb (f a)) l = l.
Proof.
  induction l as [|a l IH]; simpl; intros H.
  - reflexivity.
  - apply orb_false_iff in H. destruct H as [Ha Hl].
    rewrite Ha. simpl. now rewrite IH.
Qed.

Lemma anti_join_row {A B : Type} (cond : A -> B -> bool) (a : A) (r : list B) :
  map fst (filter (fun row => is_null (snd row))
             match filter (cond a) r with
             | [] => [(a, None)]
             | matches => map (fun b => (a, Some b)) matches
             end)
  = if existsb (cond a) r then [] else [a].
Proof.
  destruct (existsb (cond a) r) eqn:E.
  - destruct (filter (cond a) r) as [|b bs] eqn:F.
    + apply existsb_false_filter in F. congruence.
    + generalize (b :: bs). intros m.
      induction m as [|x m IHm]; simpl; auto.
  - apply existsb_false_filter in E. rewrite E. reflexivity.
Qed.

Lemma anti_join {A B : Type} (cond : A -> B -> bool) (l : list A) (r : list B) :
  map fst (filter (fun row => is_null (snd row)) (left_join cond l r))
  = filter (fun a => negb (existsb (cond a) r)) l.
Proof.
  unfold left_join.
  induction l as [|a l IH].
  - reflexivity.
  - cbn [flat_map filter].
    rewrite filter_app, map_app, IH, anti_join_row.
    destruct (existsb (cond a) r); reflexivity.
Qed.

Lemma processed_as_In (name path : string) (log : list ProcessedFileRow) :
  existsb (processed_as name path) log = true <-> In (name, path) log.
Proof.
  rewrite existsb_exists. unfold processed_as. split.
  - intros [[n p] [Hin Heq]]. simpl in Heq.
    apply andb_true_iff in Heq. destruct Heq as [Hn Hp].
    apply String.eqb_eq in Hn. apply String.eqb_eq in Hp. subst. exact Hin.
  - intros Hin. exists (name, path). split; [exact Hin|]. simpl.
    now rewrite !String.eqb_refl.
Qed.

Lemma processed_as_not_In (name path : string) (log : list ProcessedFileRow) :
  existsb (processed_as name path) log = false <-> ~ In (name, path) log.
Proof.
  rewrite <- processed_as_In. destruct (existsb _ _); split; intros; congruence.
Qed.

Lemma set_difference_In (name : string) (current : list string)
      (log : list ProcessedFileRow) (path : string) :
  In path (set_difference name current log)
  <-> In path current /\ ~ In (name, path) log.
Proof.
  only_needed.
  unfold set_difference. rewrite filter_In, negb_true_iff, processed_as_not_In.
  tauto.
Qed.

Lemma set_difference_NoDup (name : string) (current : list string)
      (log : list ProcessedFileRow) :
  NoDup current -> NoDup (set_difference name current log).
Proof. intros H. unfold set_difference. now apply NoDup_filter. Qed.

(** ** The backend record *)

Lemma restore_elevated (st : Backend) :
  set_identity (CurrentUserId st) (SecurityRestrictionContext st) (elevated st) = st.
Proof. destruct st; reflexivity. Qed.

(** ** What each function of file_list.c computes *)

Ltac step_monad :=
  cbv [bind ret GetUserIdAndSecContext SetUserIdAndSecContext GetUserId superuser
       ereport_ERROR elog_ERROR ereport_NOTICE unique_violation cannot_be_found
       permission_denied unknown_pipeline_type];
  cbn [fst snd].

Lemma bind_ext {A B : Type} (m m' : M A) (k k' : A -> M B) (st : Backend) :
  m st = m' st ->
  (forall a st', k a st' = k' a st') ->
  bind m k st = bind m' k' st.
Proof.
  intros Hm Hk. unfold bind. rewrite Hm.
  destruct (m' st); auto.
Qed.

Lemma GetUnprocessedFileList_eq (name listFunction filePattern : string) (st : Backend) :
  GetUnprocessedFileList name listFunction filePattern st
  = Ok (set_difference name (call_list_function listFunction filePattern)
                       (processed_files st)) st.
Proof.
  unfold GetUnprocessedFileList, select_unprocessed_paths. step_monad.
  rewrite anti_join, fold_left_lappend. fold (elevated st). rewrite restore_elevated.
  reflexivity.
Qed.

Lemma GetUnprocessedFilesForPipeline_found (name : string) (st : Backend)
      (row : FileListPipelineRow) :
  file_list_state name st = Some row ->
  GetUnprocessedFilesForPipeline name st
  = Ok (mkFileList (set_difference name (enumerated row) (processed_files st))
                   (fl_batched row) (read_max_batch_size row)) st.
Proof.
  unfold file_list_state, GetUnprocessedFilesForPipeline, select_file_list_pipeline.
  intros Hrow. step_monad. cbn [file_list_pipelines set_identity].
  destruct (filter _ (file_list_pipelines st)) as [|r rs]; [discriminate|].
  injection Hrow as ->.
  fold (elevated st). rewrite restore_elevated.
  rewrite GetUnprocessedFileList_eq. reflexivity.
Qed.


Lemma InsertProcessedFile_fresh (name path : string) (st : Backend) :
  ~ In (name, path) (processed_files st) ->
  InsertProcessedFile name path st
  = Ok tt (set_processed_files (processed_files st ++ [(name, path)]) st).
Proof.
  intros Hfresh. apply processed_as_not_In in Hfresh.
  unfold InsertProcessedFile, insert_processed_file. step_monad.
  cbn [processed_files set_identity]. rewrite Hfresh.
  destruct st; reflexivity.
Qed.

Lemma InsertProcessedFile_duplicate (name path : string) (st : Backend) :
  In (name, path) (processed_files st) ->
  InsertProcessedFile name path st
  = Raise (mkError ERRCODE_UNIQUE_VIOLATION
             "duplicate key value violates unique constraint") (elevated st).
Proof.
  intros Hdup. apply processed_as_In in Hdup.
  unfold InsertProcessedFile, insert_processed_file. step_monad.
  cbn [processed_files set_identity]. rewrite Hdup. reflexivity.
Qed.

Lemma InsertProcessedFile_eq (name path : string) (st : Backend) :
  InsertProcessedFile name path st
  = if existsb (processed_as name path) (processed_files st)
    then Raise (mkError ERRCODE_UNIQUE_VIOLATION
                  "duplicate key value violates unique constraint") (elevated st)
    else Ok tt (set_processed_files (processed_files st ++ [(name, path)]) st).
Proof.
  destruct (existsb (processed_as name path) (processed_files st)) eqn:E.
  - apply InsertProcessedFile_duplicate. now apply processed_as_In.
  - apply InsertProcessedFile_fresh. now apply processed_as_not_In.
Qed.

Lemma log_paths_nil (name : string) (st : Backend) : log_paths name [] st = st.
Proof. unfold log_paths. simpl. rewrite app_nil_r. destruct st; reflexivity. Qed.

Lemma log_paths_cons (name path : string) (paths : list string) (st : Backend) :
  log_paths name paths (log_paths name [path] st) = log_paths name (path :: paths) st.
Proof.
  unfold log_paths. destruct st; cbn. rewrite <- app_assoc. reflexivity.
Qed.

Lemma insert_paths_fresh (name : string) (paths : list string) (st : Backend) :
  NoDup paths ->
  (forall path, In path paths -> ~ In (name, path) (processed_files st)) ->
  insert_paths name paths st = Ok tt (log_paths name paths st).
Proof.
  revert st. induction paths as [|path rest IH]; intros st Hnd Hfresh.
  - simpl. now rewrite log_paths_nil.
  - cbn [insert_paths]. unfold bind.
    rewrite InsertProcessedFile_fresh by (apply Hfresh; now left).
    change (set_processed_files (processed_files st ++ [(name, path)]) st)
      with (log_paths name [path] st).
    inversion Hnd as [|? ? Hnotin Hnd']; subst.
    rewrite IH.
    + now rewrite log_paths_cons.
    + exact Hnd'.
    + intros p Hp. unfold log_paths. cbn [processed_files set_processed_files].
      rewrite in_app_iff. intros [Hold|Hnew].
      * apply (Hfresh p); [now right | exact Hold].
      * simpl in Hnew. destruct Hnew as [Heq|[]].
        injection Heq as ->. contradiction.
Qed.

(** ** The two loops over the cells from an offset *)

Lemma batch_of_cons_stop (maxBatch index : Z) (path : string) (rest : list string) :
  0 < maxBatch -> index + 1 = maxBatch ->
  batch_of maxBatch index (path :: rest) = [path].
Proof.
  intros Hk Hstop. unfold batch_of.
  replace (0 <? maxBatch) with true by (symmetry; apply Z.ltb_lt; lia).
  replace (Z.to_nat (maxBatch - index)) with 1%nat by lia.
  simpl. reflexivity.
Qed.

Lemma batch_of_cons_go (maxBatch index : Z) (path : string) (rest : list string) :
  0 <= index -> (0 < maxBatch -> index + 1 < maxBatch) ->
  batch_of maxBatch index (path :: rest) = path :: batch_of maxBatch (index + 1) rest.
Proof.
  intros Hi Hgo. unfold batch_of.
  destruct (0 <? maxBatch) eqn:Hk; [|reflexivity].
  apply Z.ltb_lt in Hk. specialize (Hgo Hk).
  replace (Z.to_nat (maxBatch - index)) with (S (Z.to_nat (maxBatch - (index + 1)))) by lia.
  reflexivity.
Qed.

Lemma loop_test (maxBatch index : Z) :
  (0 <? maxBatch) && (index + 1 =? maxBatch) = true
  <-> 0 < maxBatch /\ index + 1 = maxBatch.
Proof. only_needed. rewrite andb_true_iff, Z.ltb_lt, Z.eqb_eq. tauto. Qed.

Lemma collect_file_datums_eq (maxBatch : Z) (cells : list string) :
  forall index fileDatums,
    0 <= index ->
    index + list_length cells <= INT_MAX ->
    (0 < maxBatch -> index < maxBatch) ->
    collect_file_datums cells maxBatch index fileDatums
    = fileDatums ++ batch_of maxBatch index cells.
Proof.
  unfold INT_MAX.
  induction cells as [|path rest IH]; intros index fileDatums Hi Hmax Hlt.
  - unfold batch_of. destruct (0 <? maxBatch); simpl;
      rewrite ?firstn_nil, app_nil_r; reflexivity.
  - rewrite list_length_cons in Hmax. pose proof (list_length_nonneg rest) as Hn.
    cbn [collect_file_datums]. unfold int_add.
    rewrite int32_small by lia.
    destruct ((0 <? maxBatch) && (index + 1 =? maxBatch)) eqn:Htest.
    + apply loop_test in Htest. destruct Htest as [Hk Hstop].
      now rewrite batch_of_cons_stop.
    + assert (Hgo : 0 < maxBatch -> index + 1 < maxBatch).
      { intros Hk. specialize (Hlt Hk).
        destruct (Z.eq_dec (index + 1) maxBatch) as [Heq|Hne]; [|lia].
        assert (Ht : (0 <? maxBatch) && (index + 1 =? maxBatch) = true)
          by (apply loop_test; lia).
        congruence. }
      rewrite IH by lia.
      rewrite batch_of_cons_go by lia.
      rewrite <- app_assoc. reflexivity.
Qed.

Lemma insert_processed_from_eq (name : string) (maxBatch : Z) (cells : list string) :
  forall index st,
    0 <= index ->
    index + list_length cells <= INT_MAX ->
    (0 < maxBatch -> index < maxBatch) ->
    insert_processed_from name cells maxBatch index st
    = insert_paths name (batch_of maxBatch index cells) st.
Proof.
  unfold INT_MAX.
  induction cells as [|path rest IH]; intros index st Hi Hmax Hlt.
  - unfold batch_of. destruct (0 <? maxBatch); simpl;
      rewrite ?firstn_nil; reflexivity.
  - rewrite list_length_cons in Hmax. pose proof (list_length_nonneg rest) as Hn.
    cbn [insert_processed_from]. unfold int_add.
    rewrite int32_small by lia.
    destruct ((0 <? maxBatch) && (index + 1 =? maxBatch)) eqn:Htest.
    + apply loop_test in Htest. destruct Htest as [Hk Hstop].
      now rewrite batch_of_cons_stop.
    + assert (Hgo : 0 < maxBatch -> index + 1 < maxBatch).
      { intros Hk. specialize (Hlt Hk).
        destruct (Z.eq_dec (index + 1) maxBatch) as [Heq|Hne]; [|lia].
        assert (Ht : (0 <? maxBatch) && (index + 1 =? maxBatch) = true)
          by (apply loop_test; lia).
        congruence. }
      rewrite batch_of_cons_go by lia.
      cbn [insert_paths]. apply bind_ext; [reflexivity|].
      intros _ st'. apply IH; lia.
Qed.

Lemma batch_of_length (maxBatch : Z) (cells : list string) :
  list_length (batch_of maxBatch 0 cells)
  = if (0 <? maxBatch) && (maxBatch <? list_length cells)
    then maxBatch
    else list_length cells.
Proof.
  unfold batch_of, list_length.
  destruct (0 <? maxBatch) eqn:Hk; [|reflexivity].
  apply Z.ltb_lt in Hk. rewrite Z.sub_0_r, length_firstn. cbn [andb].
  destruct (maxBatch <? Z.of_nat (List.length cells)) eqn:Hlt.
  - apply Z.ltb_lt in Hlt. lia.
  - apply Z.ltb_ge in Hlt. lia.
Qed.

Lemma ExecuteBatchedFileListPipeline_eq (name cmd : string) (fileList : FileList)
      (offset : Z) (st : Backend) :
  0 <= offset <= list_length (files fileList) ->
  list_length (files fileList) <= INT_MAX ->
  ExecuteBatchedFileListPipeline name cmd fileList offset st
  = run_unit name cmd
      (chunk_unit name
         (batch_of (maxBatchSize fileList) 0 (skipn (Z.to_nat offset) (files fileList))))
      st.
Proof.
  unfold INT_MAX. intros Hoff Hmax.
  unfold ExecuteBatchedFileListPipeline, for_each_from.
  replace ((0 <=? offset) && (offset <=? list_length (files fileList))) with true
    by (symmetry; apply andb_true_iff; split; apply Z.leb_le; lia).
  set (cells := skipn (Z.to_nat offset) (files fileList)).
  assert (Hcells : list_length cells = list_length (files fileList) - offset).
  { unfold cells, list_length. rewrite length_skipn. unfold list_length in Hoff. lia. }
  unfold int_sub. rewrite int32_small by lia.
  rewrite <- Hcells, <- batch_of_length.
  rewrite collect_file_datums_eq; try lia.
  2:{ unfold INT_MAX. lia. }
  cbn [app]. unfold construct_array, list_length at 2.
  rewrite Nat2Z.id, firstn_all.
  unfold run_unit, chunk_unit, ExecuteFileListPipelineForFileArray.
  cbn [unit_notice unit_arg unit_paths].
  apply bind_ext; [reflexivity|]. intros _ st1.
  apply bind_ext; [reflexivity|]. intros _ st2.
  apply insert_processed_from_eq; try lia.
  unfold INT_MAX. lia.
Qed.

(** ** Chunks *)

Lemma ceil_div_lt (n k i : nat) :
  (0 < k)%nat -> ((i < ceil_div n k)%nat <-> (i * k < n)%nat).
Proof.
  intros Hk. unfold ceil_div.
  pose proof (Nat.div_mod_eq (n + k - 1) k) as Hdm.
  pose proof (Nat.mod_upper_bound (n + k - 1) k ltac:(lia)) as Hr.
  set (q := ((n + k - 1) / k)%nat) in *.
  set (r := ((n + k - 1) mod k)%nat) in *.
  split; intros H; nia.
Qed.

(** [ceil_div n k] is the least number of chunks of size [k] that cover [n] items. *)
Lemma ceil_div_spec (n k : nat) :
  (0 < k)%nat ->
  (n <= ceil_div n k * k)%nat /\ (0 < n -> (ceil_div n k - 1) * k < n)%nat.
Proof.
  intros Hk. split.
  - destruct (Nat.le_gt_cases n (ceil_div n k * k)) as [H|H]; [exact H|].
    apply (ceil_div_lt n k _ Hk) in H. lia.
  - intros Hn.
    assert (Hpos : (0 < ceil_div n k)%nat) by (apply ceil_div_lt; lia).
    apply ceil_div_lt; [exact Hk | lia].
Qed.

Lemma firstn_min {A : Type} (a : nat) (l : list A) :
  firstn a l = firstn (Nat.min a (List.length l)) l.
Proof.
  destruct (Nat.le_gt_cases a (List.length l)) as [H|H].
  - now rewrite Nat.min_l.
  - rewrite Nat.min_r by lia. rewrite firstn_all. apply firstn_all2. lia.
Qed.

Lemma chunk_firstn (k : nat) (delta : list string) (i : nat) :
  (i * k <= List.length delta)%nat ->
  chunk k delta i = firstn k (skipn (i * k) delta).
Proof.
  intros Hi. unfold chunk, items_at.
  rewrite (firstn_min k). rewrite length_skipn.
  f_equal. lia.
Qed.

Lemma chunks_concat_from (k : nat) (delta : list string) :
  (0 < k)%nat ->
  forall c i,
    (i + c = ceil_div (List.length delta) k)%nat ->
    List.concat (map (chunk k delta) (seq i c)) = skipn (i * k) delta.
Proof.
  intros Hk. induction c as [|c IH]; intros i Hic.
  - simpl. symmetry. apply skipn_all2.
    destruct (Nat.le_gt_cases (List.length delta) (i * k)) as [H|H]; [exact H|].
    apply (ceil_div_lt _ k i Hk) in H. lia.
  - cbn [seq map List.concat].
    assert (Hi : (i * k < List.length delta)%nat) by (apply ceil_div_lt; lia).
    rewrite IH by lia.
    rewrite chunk_firstn by lia.
    replace (S i * k)%nat with (k + i * k)%nat by lia.
    rewrite <- skipn_skipn. apply firstn_skipn.
Qed.

Lemma chunks_concat (k : nat) (delta : list string) :
  (0 < k)%nat -> List.concat (chunks k delta) = delta.
Proof.
  intros Hk. unfold chunks. now rewrite (chunks_concat_from k delta Hk _ 0%nat).
Qed.

Lemma chunks_length (k : nat) (delta : list string) :
  List.length (chunks k delta) = ceil_div (List.length delta) k.
Proof. unfold chunks. now rewrite length_map, length_seq. Qed.

Lemma chunks_nth (k : nat) (delta : list string) (i : nat) :
  (i < ceil_div (List.length delta) k)%nat ->
  nth_error (chunks k delta) i
  = Some (items_at delta (i * k) (Nat.min ((i + 1) * k) (List.length delta))).
Proof.
  intros Hi. unfold chunks. rewrite nth_error_map, nth_error_seq.
  apply Nat.ltb_lt in Hi. rewrite Hi. reflexivity.
Qed.

Lemma items_at_nth (delta : list string) (lo hi j : nat) :
  (j < hi - lo)%nat ->
  nth_error (items_at delta lo hi) j = nth_error delta (lo + j).
Proof.
  intros Hj. unfold items_at. rewrite nth_error_firstn.
  apply Nat.ltb_lt in Hj. rewrite Hj. apply nth_error_skipn.
Qed.

Lemma paths_of_chunk_units (name : string) (cs : list (list string)) :
  paths_of (map (chunk_unit name) cs) = List.concat cs.
Proof.
  unfold paths_of. rewrite map_map. cbn [chunk_unit unit_paths].
  now rewrite map_id.
Qed.

Lemma paths_of_file_units (name : string) (delta : list string) :
  paths_of (map (file_unit name) delta) = delta.
Proof.
  unfold paths_of. induction delta as [|p rest IH]; simpl; [reflexivity|].
  now rewrite IH.
Qed.

Lemma paths_of_app (us vs : list WorkUnit) :
  paths_of (us ++ vs) = paths_of us ++ paths_of vs.
Proof. unfold paths_of. now rewrite map_app, concat_app. Qed.

Lemma paths_of_work_units (name : string) (fileList : FileList) :
  paths_of (work_units name fileList) = files fileList.
Proof.
  unfold work_units. destruct (batched fileList).
  - destruct (0 <? maxBatchSize fileList) eqn:Hk.
    + apply Z.ltb_lt in Hk. rewrite paths_of_chunk_units.
      apply chunks_concat. lia.
    + unfold paths_of. simpl. apply app_nil_r.
  - apply paths_of_file_units.
Qed.

(** ** The loops of ExecuteFileListPipeline process the prescribed units *)

Lemma batched_loop_chunks (name cmd : string) (fileList : FileList) :
  0 < maxBatchSize fileList <= INT_MAX ->
  list_length (files fileList) <= MaxListLength ->
  forall c i fuel st,
    (i + c = ceil_div (List.length (files fileList)) (Z.to_nat (maxBatchSize fileList)))%nat ->
    (1 <= c <= fuel)%nat ->
    batched_loop fuel name cmd fileList
                 (Z.of_nat (i * Z.to_nat (maxBatchSize fileList))) st
    = run_units name cmd
        (map (chunk_unit name)
             (map (chunk (Z.to_nat (maxBatchSize fileList)) (files fileList)) (seq i c)))
        st.
Proof.
  rewrite MaxListLength_value. unfold INT_MAX.
  intros Hk Hlen. set (k := maxBatchSize fileList) in *.
  set (K := Z.to_nat k). set (delta := files fileList) in *.
  assert (HK : (0 < K)%nat) by (unfold K; lia).
  induction c as [|c IH]; intros i fuel st Hic Hc; [lia|].
  destruct fuel as [|fuel]; [lia|].
  assert (Hi : (i * K < List.length delta)%nat) by (apply ceil_div_lt; lia).
  unfold list_length in Hlen.
  cbn [batched_loop seq map run_units].
  apply bind_ext.
  - rewrite ExecuteBatchedFileListPipeline_eq.
    + rewrite Nat2Z.id. fold k delta.
      unfold batch_of. replace (0 <? k) with true by (symmetry; apply Z.ltb_lt; lia).
      rewrite Z.sub_0_r. fold K. rewrite chunk_firstn by lia. reflexivity.
    + fold delta. unfold list_length. lia.
    + fold delta. unfold list_length, INT_MAX. lia.
  - intros _ st'. fold k delta.
    assert (Hnext : int_add (Z.of_nat (i * K)) k = Z.of_nat (S i * K)).
    { unfold int_add. rewrite int32_small.
      - unfold K. lia.
      - destruct i as [|i]; [lia|]. unfold K in *. nia. }
    rewrite Hnext.
    replace (0 <? k) with true by (symmetry; apply Z.ltb_lt; lia).
    cbn [andb].
    destruct c as [|c].
    + replace (Z.of_nat (S i * K) <? list_length delta) with false.
      * reflexivity.
      * symmetry. apply Z.ltb_ge. unfold list_length.
        destruct (Nat.le_gt_cases (List.length delta) (S i * K)) as [H|H]; [lia|].
        apply (ceil_div_lt _ K (S i) HK) in H. lia.
    + replace (Z.of_nat (S i * K) <? list_length delta) with true.
      * apply IH; lia.
      * symmetry. apply Z.ltb_lt. unfold list_length.
        assert (H : (S i * K < List.length delta)%nat) by (apply ceil_div_lt; lia).
        lia.
Qed.

Lemma batched_loop_whole (name cmd : string) (fileList : FileList) (fuel : nat)
      (st : Backend) :
  maxBatchSize fileList <= 0 ->
  list_length (files fileList) <= MaxListLength ->
  batched_loop (S fuel) name cmd fileList 0 st
  = run_units name cmd [chunk_unit name (files fileList)] st.
Proof.
  rewrite MaxListLength_value. intros Hk Hlen.
  cbn [batched_loop run_units].
  apply bind_ext.
  - rewrite ExecuteBatchedFileListPipeline_eq.
    + unfold batch_of.
      replace (0 <? maxBatchSize fileList) with false by (symmetry; apply Z.ltb_ge; lia).
      reflexivity.
    + pose proof (list_length_nonneg (files fileList)). lia.
    + unfold INT_MAX. lia.
  - intros _ st'.
    replace (0 <? maxBatchSize fileList) with false by (symmetry; apply Z.ltb_ge; lia).
    reflexivity.
Qed.

Lemma foreach_file_units (name cmd : string) (cells : list string) (st : Backend) :
  foreach_file name cmd cells st = run_units name cmd (map (file_unit name) cells) st.
Proof.
  revert st. induction cells as [|path rest IH]; intros st; [reflexivity|].
  cbn [foreach_file map run_units]. unfold run_unit, file_unit.
  cbn [unit_notice unit_arg unit_paths insert_paths].
  unfold ExecuteFileListPipelineForFile, bind, ereport_NOTICE, ret.
  destruct (SPI_execute_command cmd (TextArg path) _) as [[] st1|e st1| |]; try reflexivity.
  destruct (InsertProcessedFile name path st1) as [[] st2|e st2| |]; try reflexivity.
  apply IH.
Qed.

Lemma ExecuteFileListPipeline_units (fuel : nat) (name cmd : string) (st : Backend)
      (row : FileListPipelineRow) :
  file_list_state name st = Some row ->
  set_difference name (enumerated row) (processed_files st) <> [] ->
  list_length (set_difference name (enumerated row) (processed_files st)) <= MaxListLength ->
  read_max_batch_size row <= INT_MAX ->
  (List.length (set_difference name (enumerated row) (processed_files st)) < fuel)%nat ->
  ExecuteFileListPipeline fuel name cmd st
  = run_units name cmd
      (work_units name
         (mkFileList (set_difference name (enumerated row) (processed_files st))
                     (fl_batched row) (read_max_batch_size row)))
      st.
Proof.
  intros Hrow Hne Hlen Hk Hfuel.
  unfold ExecuteFileListPipeline, bind.
  rewrite (GetUnprocessedFilesForPipeline_found _ _ _ Hrow).
  set (delta := set_difference name (enumerated row) (processed_files st)) in *.
  cbn [files batched]. unfold work_units. cbn [files batched maxBatchSize].
  destruct delta as [|p rest] eqn:Hdelta; [congruence|]. rewrite <- Hdelta in *.
  assert (Hpos : (0 < List.length delta)%nat) by (rewrite Hdelta; simpl; lia).
  destruct (fl_batched row).
  - destruct (0 <? read_max_batch_size row) eqn:Hpositive.
    + apply Z.ltb_lt in Hpositive.
      set (fileList := mkFileList delta true (read_max_batch_size row)).
      pose proof (batched_loop_chunks name cmd fileList) as Hloop.
      cbn [fileList maxBatchSize files] in Hloop.
      specialize (Hloop (conj Hpositive Hk) Hlen
                        (ceil_div (List.length delta) (Z.to_nat (read_max_batch_size row)))
                        0%nat fuel st eq_refl).
      cbn [Nat.mul Z.of_nat] in Hloop. unfold chunks. apply Hloop.
      assert (HK : (0 < Z.to_nat (read_max_batch_size row))%nat) by lia.
      pose proof (ceil_div_spec (List.length delta) _ HK) as [_ Hlast].
      specialize (Hlast Hpos).
      assert ((0 < ceil_div (List.length delta) (Z.to_nat (read_max_batch_size row)))%nat)
        by (apply ceil_div_lt; lia).
      nia.
    + apply Z.ltb_ge in Hpositive.
      destruct fuel as [|fuel]; [lia|].
      apply (batched_loop_whole name cmd (mkFileList delta true (read_max_batch_size row)));
        assumption.
  - apply foreach_file_units.
Qed.

(** ** Running units: all complete, or one fails *)

Lemma NoDup_app_disjoint {A : Type} (l1 l2 : list A) :
  NoDup (l1 ++ l2) -> forall a, In a l1 -> ~ In a l2.
Proof.
  induction l1 as [|x l1 IH]; intros Hnd a Hin; [contradiction|].
  simpl in Hnd. inversion Hnd as [|? ? Hx Hnd']; subst.
  destruct Hin as [->|Hin].
  - intros H2. apply Hx. apply in_or_app. now right.
  - now apply IH.
Qed.

Lemma after_units_nil (name cmd : string) (st : Backend) :
  after_units name cmd [] st = st.
Proof.
  unfold after_units, paths_of. simpl. rewrite !app_nil_r. destruct st; reflexivity.
Qed.

Lemma after_units_cons (name cmd : string) (u : WorkUnit) (us : list WorkUnit)
      (st : Backend) :
  after_units name cmd us (after_units name cmd [u] st) = after_units name cmd (u :: us) st.
Proof.
  unfold after_units, paths_of. destruct st; cbn.
  rewrite app_nil_r, map_app, <- !app_assoc. reflexivity.
Qed.

Lemma run_unit_complete (name cmd : string) (u : WorkUnit) (st : Backend) :
  user_command cmd (unit_arg u) = None ->
  NoDup (unit_paths u) ->
  (forall path, In path (unit_paths u) -> ~ In (name, path) (processed_files st)) ->
  run_unit name cmd u st = Ok tt (after_units name cmd [u] st).
Proof.
  intros Hok Hnd Hfresh.
  unfold run_unit, bind, ereport_NOTICE, SPI_execute_command. rewrite Hok.
  rewrite insert_paths_fresh; [|exact Hnd|exact Hfresh].
  unfold after_units, paths_of, log_paths. destruct st; cbn.
  rewrite app_nil_r. reflexivity.
Qed.

Lemma run_unit_fail (name cmd : string) (u : WorkUnit) (e : ErrorData) (st : Backend) :
  user_command cmd (unit_arg u) = Some e ->
  run_unit name cmd u st
  = Raise e (add_executed cmd (unit_arg u) (add_notice (unit_notice u) st)).
Proof.
  intros Hfail.
  unfold run_unit, bind, ereport_NOTICE, SPI_execute_command. now rewrite Hfail.
Qed.

Lemma fresh_after_unit (name cmd : string) (u : WorkUnit) (rest : list string)
      (st : Backend) :
  NoDup (unit_paths u ++ rest) ->
  (forall path, In path (unit_paths u ++ rest) -> ~ In (name, path) (processed_files st)) ->
  forall path, In path rest ->
               ~ In (name, path) (processed_files (after_units name cmd [u] st)).
Proof.
  intros Hnd Hfresh path Hin.
  unfold after_units, paths_of. cbn [processed_files map List.concat].
  rewrite app_nil_r, in_app_iff, in_map_iff.
  intros [Hold|[p [Heq Hp]]].
  - apply (Hfresh path); [apply in_or_app; now right | exact Hold].
  - injection Heq as ->.
    exact (NoDup_app_disjoint _ _ Hnd _ Hp Hin).
Qed.

Lemma run_units_complete (name cmd : string) (units : list WorkUnit) :
  forall st,
    (forall u, In u units -> user_command cmd (unit_arg u) = None) ->
    NoDup (paths_of units) ->
    (forall path, In path (paths_of units) -> ~ In (name, path) (processed_files st)) ->
    run_units name cmd units st = Ok tt (after_units name cmd units st).
Proof.
  induction units as [|u us IH]; intros st Hok Hnd Hfresh.
  - simpl. now rewrite after_units_nil.
  - change (paths_of (u :: us)) with (unit_paths u ++ paths_of us) in *.
    cbn [run_units]. unfold bind.
    rewrite run_unit_complete.
    + rewrite IH.
      * now rewrite after_units_cons.
      * intros v Hv. apply Hok. now right.
      * exact (NoDup_app_remove_l _ _ Hnd).
      * now apply fresh_after_unit.
    + apply Hok. now left.
    + exact (NoDup_app_remove_r _ _ Hnd).
    + intros p Hp. apply Hfresh. apply in_or_app. now left.
Qed.

Lemma run_units_fail (name cmd : string) (before : list WorkUnit) (u : WorkUnit)
      (after : list WorkUnit) (e : ErrorData) :
  forall st,
    (forall v, In v before -> user_command cmd (unit_arg v) = None) ->
    user_command cmd (unit_arg u) = Some e ->
    NoDup (paths_of before) ->
    (forall path, In path (paths_of before) -> ~ In (name, path) (processed_files st)) ->
    run_units name cmd (before ++ u :: after) st
    = Raise e (failed_at name cmd before u st).
Proof.
  induction before as [|v vs IH]; intros st Hok Hfail Hnd Hfresh.
  - cbn [app run_units]. unfold bind. rewrite (run_unit_fail _ _ _ _ _ Hfail).
    unfold failed_at. now rewrite after_units_nil.
  - change (paths_of (v :: vs)) with (unit_paths v ++ paths_of vs) in *.
    rewrite <- app_comm_cons. cbn [run_units]. unfold bind.
    rewrite run_unit_complete.
    + rewrite IH.
      * unfold failed_at. now rewrite after_units_cons.
      * intros w Hw. apply Hok. now right.
      * exact Hfail.
      * exact (NoDup_app_remove_l _ _ Hnd).
      * now apply fresh_after_unit.
    + apply Hok. now left.
    + exact (NoDup_app_remove_r _ _ Hnd).
    + intros p Hp. apply Hfresh. apply in_or_app. now left.
Qed.

(** ** What each function of pipeline.c computes *)

Lemma ReadPipelineDesc_found (name : string) (st : Backend) (row : PipelineRow) :
  pipeline_row name st = Some row ->
  ReadPipelineDesc name st = Ok (desc_of_row name row) st.
Proof.
  unfold pipeline_row, ReadPipelineDesc, select_pipeline. intros Hrow.
  step_monad. cbn [pipelines set_identity].
  destruct (filter _ (pipelines st)) as [|r rs]; [discriminate|].
  injection Hrow as ->. fold (elevated st). now rewrite restore_elevated.
Qed.

Lemma ReadPipelineDesc_missing (name : string) (st : Backend) :
  pipeline_row name st = None ->
  ReadPipelineDesc name st = Raise (no_such_pipeline name) (elevated st).
Proof.
  unfold pipeline_row, ReadPipelineDesc, select_pipeline. intros Hrow.
  step_monad. cbn [pipelines set_identity].
  destruct (filter _ (pipelines st)) as [|r rs]; [|discriminate].
  reflexivity.
Qed.

Lemma EnsurePipelineOwner_allowed (name : string) (owner : Oid) (st : Backend) :
  superuser_arg (CurrentUserId st) = true \/ owner = CurrentUserId st ->
  EnsurePipelineOwner name owner st = Ok tt st.
Proof.
  intros Hallowed. unfold EnsurePipelineOwner. step_monad.
  destruct (superuser_arg (CurrentUserId st)); [reflexivity|].
  destruct Hallowed as [Hsu | ->]; [discriminate|].
  now rewrite Z.eqb_refl.
Qed.

Lemma EnsurePipelineOwner_denied (name : string) (owner : Oid) (st : Backend) :
  superuser_arg (CurrentUserId st) = false ->
  owner <> CurrentUserId st ->
  EnsurePipelineOwner name owner st
  = Raise (mkError ERRCODE_INSUFFICIENT_PRIVILEGE
             (String.append "permission denied for pipeline " name)) st.
Proof.
  intros Hsu Hother. unfold EnsurePipelineOwner. step_monad. rewrite Hsu.
  apply Z.eqb_neq in Hother. now rewrite Hother.
Qed.

Lemma InsertPipeline_eq (name : string) (type : PipelineType) (sourceRelation : Oid)
      (cmd : string) (st : Backend) :
  InsertPipeline name type sourceRelation cmd st
  = if existsb (fun r => String.eqb (pipeline_name r) name) (pipelines st)
    then Raise (mkError ERRCODE_UNIQUE_VIOLATION
                  "duplicate key value violates unique constraint") (elevated st)
    else Ok tt (set_pipelines
                  (pipelines st
                     ++ [mkPipelineRow name type (CurrentUserId st) sourceRelation cmd])
                  st).
Proof.
  unfold InsertPipeline, insert_pipeline. step_monad.
  cbn [pipelines set_identity pipeline_name].
  destruct (existsb _ (pipelines st)); [reflexivity|].
  destruct st; reflexivity.
Qed.

Lemma DeletePipeline_eq (name : string) (st : Backend) :
  DeletePipeline name st
  = Ok tt (set_pipelines
             (filter (fun r => negb (String.eqb (pipeline_name r) name)) (pipelines st)) st).
Proof.
  unfold DeletePipeline, delete_pipeline. step_monad. destruct st; reflexivity.
Qed.

Lemma InitializeFileListPipelineState_eq (name pattern : string) (isBatched : bool)
      (listFunction : string) (maxBatch : Z) (st : Backend) :
  InitializeFileListPipelineState name pattern isBatched listFunction maxBatch st
  = if existsb (fun r => String.eqb (fl_pipeline_name r) name) (file_list_pipelines st)
    then Raise (mkError ERRCODE_UNIQUE_VIOLATION
                  "duplicate key value violates unique constraint") (elevated st)
    else Ok tt (set_file_list_pipelines
                  (file_list_pipelines st
                     ++ [mkFileListPipelineRow name pattern isBatched listFunction
                           (if 0 <? maxBatch then Some maxBatch else None)])
                  st).
Proof.
  unfold InitializeFileListPipelineState, insert_file_list_pipeline. step_monad.
  cbn [file_list_pipelines set_identity fl_pipeline_name].
  destruct (existsb _ (file_list_pipelines st)); [reflexivity|].
  destruct st; reflexivity.
Qed.

Lemma deleted_none {A : Type} (f : A -> bool) (l : list A) :
  (list_length (filter f l) <=? 0) = negb (existsb f l).
Proof.
  destruct (existsb f l) eqn:Hany; cbn [negb].
  - destruct (filter f l) as [|r rs] eqn:Hgone.
    + apply existsb_false_filter in Hgone. congruence.
    + apply Z.leb_gt. rewrite list_length_cons.
      pose proof (list_length_nonneg rs). lia.
  - apply existsb_false_filter in Hany. now rewrite Hany.
Qed.

Lemma RemoveProcessedFileList_eq (name : string) (st : Backend) :
  RemoveProcessedFileList name st
  = if has_processed_files name st
    then Ok tt (set_processed_files
                  (filter (fun r => negb (String.eqb (fst r) name)) (processed_files st)) st)
    else Raise (mkError ERRCODE_UNDEFINED_OBJECT
                  (String.append "pipeline "
                     (String.append (quoted name) " cannot be found")))
               (elevated st).
Proof.
  unfold RemoveProcessedFileList, delete_processed_files, has_processed_files.
  step_monad. cbn [processed_files set_identity].
  rewrite deleted_none.
  match goal with
  | |- context [existsb ?f ?l] => destruct (existsb f l) eqn:Hany
  end; cbn [negb].
  - destruct st; reflexivity.
  - rewrite (filter_negb_all _ _ Hany). destruct st; reflexivity.
Qed.

(** ** The delta against a log that has grown *)

Lemma processed_as_logged (name path : string) (log : list ProcessedFileRow)
      (done : list string) :
  existsb (processed_as name path) (log ++ map (pair name) done)
  = existsb (processed_as name path) log || existsb (String.eqb path) done.
Proof.
  rewrite existsb_app. f_equal.
  induction done as [|d rest IH]; simpl; [reflexivity|].
  rewrite IH. unfold processed_as at 1. simpl. now rewrite String.eqb_refl.
Qed.

Lemma filter_not_in_prefix (done rest : list string) :
  NoDup (done ++ rest) ->
  filter (fun path => negb (existsb (String.eqb path) done)) (done ++ rest) = rest.
Proof.
  intros Hnd. rewrite filter_app.
  assert (Hdone : forall l, (forall p, In p l -> In p done) ->
                            filter (fun path => negb (existsb (String.eqb path) done)) l = []).
  { induction l as [|p l IH]; intros Hsub; simpl; [reflexivity|].
    assert (Hp : existsb (String.eqb p) done = true).
    { apply existsb_exists. exists p. split; [apply Hsub; now left|apply String.eqb_refl]. }
    rewrite Hp. simpl. apply IH. intros q Hq. apply Hsub. now right. }
  rewrite Hdone by auto. simpl.
  pose proof (NoDup_app_disjoint _ _ Hnd) as Hdisj.
  assert (Hrest : forall l, (forall p, In p l -> ~ In p done) ->
                            filter (fun path => negb (existsb (String.eqb path) done)) l = l).
  { induction l as [|p l IH]; intros Hout; simpl; [reflexivity|].
    assert (Hp : existsb (String.eqb p) done = false).
    { destruct (existsb (String.eqb p) done) eqn:E; [|reflexivity].
      apply existsb_exists in E. destruct E as [q [Hq Heq]].
      apply String.eqb_eq in Heq. subst q. exfalso. apply (Hout p); [now left|exact Hq]. }
    rewrite Hp. simpl. f_equal. apply IH. intros q Hq. apply Hout. now right. }
  apply Hrest. intros p Hp Hd. exact (Hdisj p Hd Hp).
Qed.

Lemma set_difference_logged (name : string) (current : list string)
      (log : list ProcessedFileRow) (done rest : list string) :
  set_difference name current log = done ++ rest ->
  NoDup (done ++ rest) ->
  set_difference name current (log ++ map (pair name) done) = rest.
Proof.
  intros Hsplit Hnd'.
  rewrite <- (filter_not_in_prefix done rest Hnd'), <- Hsplit.
  unfold set_difference. clear.
  induction current as [|p l IH]; simpl; [reflexivity|].
  rewrite processed_as_logged.
  destruct (existsb (processed_as name p) log); simpl.
  - exact IH.
  - destruct (existsb (String.eqb p) done); simpl; now rewrite IH.
Qed.

(** ** Claims on file-list pipelines *)

(** C1. For a pipeline with file-list state, GetUnprocessedFilesForPipeline
    returns the set difference between the enumerator's current output for the
    pipeline's pattern and the ProcessedLog entries under the pipeline's name:
    a path is in the returned list exactly when it is enumerated and has no log
    entry for this pipeline.  The backend is unchanged. *)
Theorem C1_delta_is_set_difference (name : string) (st : Backend)
        (row : FileListPipelineRow) :
  file_list_state name st = Some row ->
  exists fileList,
    GetUnprocessedFilesForPipeline name st = Ok fileList st /\
    GetUnprocessedFileList name (list_function row) (file_pattern row) st
    = Ok (files fileList) st /\
    (forall path,
        In path (files fileList)
        <-> In path (enumerated row) /\ ~ In (name, path) (processed_files st)) /\
    files fileList
    = filter (fun path => negb (existsb (processed_as name path) (processed_files st)))
             (enumerated row).
Proof.
  intros Hrow. eexists. split; [apply (GetUnprocessedFilesForPipeline_found _ _ _ Hrow)|].
  cbn [files]. split; [apply GetUnprocessedFileList_eq|]. split.
  - intros path. apply set_difference_In.
  - reflexivity.
Qed.

(** C9. When every enumerated item already has a log entry, executing the
    file-list pipeline returns normally after one notice, "no files to
    process": no command is executed and no ProcessedLog row is written. *)
Theorem C9_empty_delta_is_noop (fuel : nat) (name cmd : string) (st : Backend)
        (row : FileListPipelineRow) :
  file_list_state name st = Some row ->
  (forall path, In path (enumerated row) -> In (name, path) (processed_files st)) ->
  exists st',
    ExecuteFileListPipeline fuel name cmd st = Ok tt st' /\
    st' = add_notice (String.append "pipeline " (String.append name ": no files to process")) st /\
    executed st' = executed st /\
    processed_files st' = processed_files st /\
    notices st'
    = notices st ++ [String.append "pipeline " (String.append name ": no files to process")].
Proof.
  intros Hrow Hall.
  assert (Hempty : set_difference name (enumerated row) (processed_files st) = []).
  { destruct (set_difference name (enumerated row) (processed_files st)) as [|p l] eqn:Hd;
      [reflexivity|].
    assert (Hin : In p (set_difference name (enumerated row) (processed_files st)))
      by (rewrite Hd; now left).
    apply set_difference_In in Hin. destruct Hin as [Hcur Hnot].
    exfalso. apply Hnot. now apply Hall. }
  eexists. split.
  - unfold ExecuteFileListPipeline, bind.
    rewrite (GetUnprocessedFilesForPipeline_found _ _ _ Hrow).
    cbn [files]. rewrite Hempty. reflexivity.
  - repeat split; reflexivity.
Qed.

(** C2. A batched file-list pipeline with a non-empty delta of n distinct items,
    whose command completes on every call: with maxBatchSize = k > 0 the user
    command is executed exactly ceil(n/k) times, call i with the array of the
    items at offsets i*k .. min((i+1)*k, n)-1, and the arrays concatenated are
    the delta in its order; with maxBatchSize absent or <= 0 it is executed once,
    with the whole delta.  Every item of the delta is then in the log.  The
    delta is within the length of a PostgreSQL List, the batch size is an int4,
    and the loop of the model has fuel beyond the number of items. *)
Theorem C2_batches_cover_delta (fuel : nat) (name cmd : string) (st : Backend)
        (row : FileListPipelineRow) :
  file_list_state name st = Some row ->
  fl_batched row = true ->
  let delta := set_difference name (enumerated row) (processed_files st) in
  delta <> [] ->
  NoDup delta ->
  list_length delta <= MaxListLength ->
  (forall k, max_batch_size row = Some k -> k <= INT_MAX) ->
  (forall arg, user_command cmd arg = None) ->
  (List.length delta < fuel)%nat ->
  exists st',
    ExecuteFileListPipeline fuel name cmd st = Ok tt st' /\
    processed_files st' = processed_files st ++ map (pair name) delta /\
    (forall k,
        max_batch_size row = Some k -> 0 < k ->
        executed st'
        = executed st
            ++ map (fun items => (cmd, TextArrayArg items)) (chunks (Z.to_nat k) delta) /\
        List.length (chunks (Z.to_nat k) delta)
        = ceil_div (List.length delta) (Z.to_nat k) /\
        (forall i,
            (i < ceil_div (List.length delta) (Z.to_nat k))%nat ->
            nth_error (chunks (Z.to_nat k) delta) i
            = Some (items_at delta (i * Z.to_nat k)
                             (Nat.min ((i + 1) * Z.to_nat k) (List.length delta)))) /\
        List.concat (chunks (Z.to_nat k) delta) = delta) /\
    ((max_batch_size row = None \/ exists k, max_batch_size row = Some k /\ k <= 0) ->
     executed st' = executed st ++ [(cmd, TextArrayArg delta)]).
Proof.
  intros Hrow Hbatched delta Hne Hnd Hlen Hint Hok Hfuel.
  assert (Hk : read_max_batch_size row <= INT_MAX).
  { unfold read_max_batch_size. destruct (max_batch_size row) as [k|].
    - now apply Hint.
    - unfold INT_MAX. lia. }
  set (fileList := mkFileList delta (fl_batched row) (read_max_batch_size row)).
  exists (after_units name cmd (work_units name fileList) st). split.
  - rewrite (ExecuteFileListPipeline_units fuel name cmd st row Hrow Hne Hlen Hk Hfuel).
    apply run_units_complete.
    + intros u _. apply Hok.
    + rewrite paths_of_work_units. exact Hnd.
    + rewrite paths_of_work_units. intros path Hin.
      now apply set_difference_In in Hin.
  - split; [|split].
    + cbn [after_units processed_files]. now rewrite paths_of_work_units.
    + intros k Hsome Hpos.
      cbn [after_units executed]. unfold work_units, fileList.
      cbn [batched maxBatchSize files]. rewrite Hbatched.
      unfold read_max_batch_size. rewrite Hsome.
      replace (0 <? k) with true by (symmetry; now apply Z.ltb_lt).
      rewrite map_map. cbn [chunk_unit unit_arg].
      split; [reflexivity|]. split; [apply chunks_length|].
      split; [intros i Hi; now apply chunks_nth|].
      apply chunks_concat. lia.
    + intros Hwhole.
      cbn [after_units executed]. unfold work_units, fileList.
      cbn [batched maxBatchSize files]. rewrite Hbatched.
      replace (0 <? read_max_batch_size row) with false; [reflexivity|].
      symmetry. apply Z.ltb_ge. unfold read_max_batch_size.
      destruct Hwhole as [-> | [k [-> Hle]]]; lia.
Qed.

(** C3 (as amended).  Over a delta of distinct items: when the user command of
    unit i (item i, or chunk i of a batched pipeline) raises and the earlier
    commands completed, the error leaves ExecuteFileListPipeline uncaught.  At
    the raise the log holds, after its earlier rows, exactly the items of units
    0..i-1, so the delta against the log as it stands at the raise is the items
    of units i onward.  Nothing is committed between units: once the failed
    statement is rolled back the log is the one from before the call and the
    delta is the whole delta again.  Limits as for C2. *)
Theorem C3_failure_keeps_earlier_units_only_in_flight
        (fuel : nat) (name cmd : string) (st : Backend) (row : FileListPipelineRow)
        (i : nat) (u : WorkUnit) (e : ErrorData) :
  file_list_state name st = Some row ->
  let delta := set_difference name (enumerated row) (processed_files st) in
  let units := work_units name
                 (mkFileList delta (fl_batched row) (read_max_batch_size row)) in
  delta <> [] ->
  NoDup delta ->
  list_length delta <= MaxListLength ->
  (forall k, max_batch_size row = Some k -> k <= INT_MAX) ->
  (List.length delta < fuel)%nat ->
  nth_error units i = Some u ->
  (forall j v, (j < i)%nat -> nth_error units j = Some v ->
               user_command cmd (unit_arg v) = None) ->
  user_command cmd (unit_arg u) = Some e ->
  exists raised,
    ExecuteFileListPipeline fuel name cmd st = Raise e raised /\
    processed_files raised
    = processed_files st ++ map (pair name) (paths_of (firstn i units)) /\
    set_difference name (enumerated row) (processed_files raised)
    = paths_of (skipn i units) /\
    exists rolled_back,
      run_statement (ExecuteFileListPipeline fuel name cmd) st = Some rolled_back /\
      processed_files rolled_back = processed_files st /\
      set_difference name (enumerated row) (processed_files rolled_back) = delta.
Proof.
  intros Hrow delta units Hne Hnd Hlen Hint Hfuel Hnth Hbefore Hfail.
  assert (Hk : read_max_batch_size row <= INT_MAX).
  { unfold read_max_batch_size. destruct (max_batch_size row) as [k|].
    - now apply Hint.
    - unfold INT_MAX. lia. }
  destruct (nth_error_split _ _ Hnth) as [before [after [Hsplit Hi]]].
  assert (Hfirst : firstn i units = before).
  { rewrite Hsplit, <- Hi, firstn_app, Nat.sub_diag, firstn_all. cbn [firstn].
    apply app_nil_r. }
  assert (Hskip : skipn i units = u :: after).
  { rewrite Hsplit, <- Hi, skipn_app, Nat.sub_diag, skipn_all. reflexivity. }
  assert (Hpaths : paths_of before ++ paths_of (u :: after) = delta).
  { rewrite <- paths_of_app, <- Hsplit. apply (paths_of_work_units name). }
  pose proof Hnd as Hnd_delta.
  assert (Hrun : ExecuteFileListPipeline fuel name cmd st
                 = Raise e (failed_at name cmd before u st)).
  { rewrite (ExecuteFileListPipeline_units fuel name cmd st row Hrow Hne Hlen Hk Hfuel).
    fold delta. fold units. rewrite Hsplit.
    apply run_units_fail.
    - intros v Hv. destruct (In_nth_error _ _ Hv) as [j Hj].
      assert (Hjlt : (j < List.length before)%nat).
      { apply nth_error_Some. congruence. }
      apply (Hbefore j v); [lia|].
      rewrite Hsplit, nth_error_app1; assumption.
    - exact Hfail.
    - rewrite <- Hpaths in Hnd_delta. exact (NoDup_app_remove_r _ _ Hnd_delta).
    - intros path Hin.
      assert (Hd : In path delta) by (rewrite <- Hpaths; apply in_or_app; now left).
      now apply set_difference_In in Hd. }
  exists (failed_at name cmd before u st).
  split; [exact Hrun|]. split; [|split].
  - rewrite Hfirst. reflexivity.
  - rewrite Hskip. cbn [failed_at add_executed add_notice after_units processed_files].
    apply set_difference_logged; [|now rewrite Hpaths].
    symmetry. exact Hpaths.
  - exists (abort_transaction st (failed_at name cmd before u st)).
    unfold run_statement. rewrite Hrun. repeat split; reflexivity.
Qed.

(** C5 (as amended).  RemoveProcessedFileList succeeds only when it deletes at
    least one row: the rows of the pipeline are then gone, the rows of other
    pipelines kept and the caller's identity restored.  When no row of the
    pipeline exists it raises "pipeline ... cannot be found", with the rows
    unchanged; so a second call right after a successful one fails. *)
Theorem C5_remove_needs_a_row (name : string) (st : Backend) :
  (has_processed_files name st = false ->
   RemoveProcessedFileList name st
   = Raise (mkError ERRCODE_UNDEFINED_OBJECT
              (String.append "pipeline " (String.append (quoted name) " cannot be found")))
           (elevated st)
   /\ processed_files (elevated st) = processed_files st) /\
  (has_processed_files name st = true ->
   exists st',
     RemoveProcessedFileList name st = Ok tt st' /\
     st' = set_processed_files
             (filter (fun r => negb (String.eqb (fst r) name)) (processed_files st)) st /\
     has_processed_files name st' = false /\
     (forall other path, other <> name ->
                         (In (other, path) (processed_files st')
                          <-> In (other, path) (processed_files st))) /\
     exists e raised, RemoveProcessedFileList name st' = Raise e raised).
Proof.
  only_needed.
  split; intros Hany.
  - rewrite RemoveProcessedFileList_eq, Hany. split; reflexivity.
  - rewrite RemoveProcessedFileList_eq, Hany.
    assert (Hgone : has_processed_files name
                      (set_processed_files
                         (filter (fun r => negb (String.eqb (fst r) name))
                                 (processed_files st)) st) = false).
    { unfold has_processed_files. cbn [processed_files set_processed_files].
      apply existsb_false_filter.
      induction (processed_files st) as [|r l IH]; simpl; [reflexivity|].
      destruct (String.eqb (fst r) name) eqn:E; simpl; [exact IH|].
      rewrite E. exact IH. }
    eexists. split; [reflexivity|]. split; [reflexivity|]. split; [exact Hgone|]. split.
    + intros other path Hother. cbn [processed_files set_processed_files].
      rewrite filter_In. cbn [fst].
      apply String.eqb_neq in Hother. rewrite Hother. simpl. tauto.
    + rewrite RemoveProcessedFileList_eq, Hgone. eauto.
Qed.



(** ** Claims on the registry and the dispatch *)

Lemma pipeline_row_none (name : string) (st : Backend) :
  pipeline_row name st = None
  <-> existsb (fun r => String.eqb (pipeline_name r) name) (pipelines st) = false.
Proof.
  unfold pipeline_row. rewrite existsb_false_filter.
  destruct (filter _ (pipelines st)); simpl; split; intros; congruence.
Qed.

Lemma entry_allowed {A : Type} (name : string) (st : Backend) (row : PipelineRow)
      (k : PipelineDesc -> M A) :
  pipeline_row name st = Some row ->
  superuser_arg (CurrentUserId st) = true \/ owner_id row = CurrentUserId st ->
  bind (ReadPipelineDesc name)
       (fun pipelineDesc => bind (EnsurePipelineOwner name (ownerId pipelineDesc))
                                 (fun _ => k pipelineDesc)) st
  = k (desc_of_row name row) st.
Proof.
  intros Hrow Hallowed. unfold bind at 1. rewrite (ReadPipelineDesc_found _ _ _ Hrow).
  unfold bind. cbn [desc_of_row ownerId].
  now rewrite (EnsurePipelineOwner_allowed _ _ _ Hallowed).
Qed.

Lemma entry_denied {A : Type} (name : string) (st : Backend) (row : PipelineRow)
      (k : PipelineDesc -> M A) :
  pipeline_row name st = Some row ->
  superuser_arg (CurrentUserId st) = false ->
  owner_id row <> CurrentUserId st ->
  bind (ReadPipelineDesc name)
       (fun pipelineDesc => bind (EnsurePipelineOwner name (ownerId pipelineDesc))
                                 (fun _ => k pipelineDesc)) st
  = Raise (mkError ERRCODE_INSUFFICIENT_PRIVILEGE
             (String.append "permission denied for pipeline " name)) st.
Proof.
  intros Hrow Hsu Hother. unfold bind at 1. rewrite (ReadPipelineDesc_found _ _ _ Hrow).
  unfold bind. cbn [desc_of_row ownerId].
  now rewrite (EnsurePipelineOwner_denied _ _ _ Hsu Hother).
Qed.

(** C8. For an existing pipeline, execute, reset and drop called by a user who
    is neither a superuser nor the recorded owner raise "permission denied" with
    the backend exactly as it was; for a superuser or the owner the ownership
    check passes with the backend unchanged and the operation proper starts
    from that backend. *)
Theorem C8_ownership_enforced (name : string) (st : Backend) (row : PipelineRow) :
  pipeline_row name st = Some row ->
  (superuser_arg (CurrentUserId st) = false ->
   owner_id row <> CurrentUserId st ->
   incremental_execute_pipeline name st
   = Raise (mkError ERRCODE_INSUFFICIENT_PRIVILEGE
              (String.append "permission denied for pipeline " name)) st /\
   incremental_reset_pipeline name st
   = Raise (mkError ERRCODE_INSUFFICIENT_PRIVILEGE
              (String.append "permission denied for pipeline " name)) st /\
   incremental_drop_pipeline name st
   = Raise (mkError ERRCODE_INSUFFICIENT_PRIVILEGE
              (String.append "permission denied for pipeline " name)) st) /\
  (superuser_arg (CurrentUserId st) = true \/ owner_id row = CurrentUserId st ->
   EnsurePipelineOwner name (owner_id row) st = Ok tt st /\
   incremental_execute_pipeline name st
   = ExecutePipeline name (pipeline_type row) (command_text row) st /\
   incremental_reset_pipeline name st = ResetPipeline name (pipeline_type row) st /\
   incremental_drop_pipeline name st
   = bind (DeletePipeline name)
          (fun _ => UnscheduleCronJob (GetCronJobNameForPipeline name)) st).
Proof.
  intros Hrow. split.
  - intros Hsu Hother.
    unfold incremental_execute_pipeline, incremental_reset_pipeline,
      incremental_drop_pipeline.
    repeat split; apply (entry_denied name st row _ Hrow Hsu Hother).
  - intros Hallowed. split; [now apply EnsurePipelineOwner_allowed|].
    unfold incremental_execute_pipeline, incremental_reset_pipeline,
      incremental_drop_pipeline.
    repeat split;
      rewrite (entry_allowed name st row _ Hrow Hallowed); reflexivity.
Qed.

(** C4 (as amended).  ExecutePipeline and ResetPipeline switch on two kinds:
    type 's' reaches the sequence-range strategy and type 't' the time-interval
    strategy; every other type code, whichever would stand for a file-list
    pipeline included, ends in the fatal "unknown pipeline type" branch with
    nothing done.  The file-list strategy is not reached by the dispatch. *)
Theorem C4_dispatch_over_two_kinds (name cmd : string) (type : PipelineType)
        (st : Backend) :
  (type = SEQUENCE_RANGE_PIPELINE ->
   ExecutePipeline name type cmd st = ExecuteSequenceRangePipeline name cmd st /\
   ResetPipeline name type st = UpdateLastProcessedSequenceNumber name 0 st) /\
  (type = TIME_INTERVAL_PIPELINE ->
   ExecutePipeline name type cmd st = ExecuteTimeIntervalPipeline name cmd st /\
   ResetPipeline name type st = UpdateLastProcessedTimeInterval name 0 st) /\
  (type <> SEQUENCE_RANGE_PIPELINE ->
   type <> TIME_INTERVAL_PIPELINE ->
   ExecutePipeline name type cmd st
   = Raise (mkError ERRCODE_INTERNAL_ERROR
              (String.append "unknown pipeline type: " (format_char type))) st /\
   ResetPipeline name type st
   = Raise (mkError ERRCODE_INTERNAL_ERROR
              (String.append "unknown pipeline type: " (format_char type))) st).
Proof.
  unfold ExecutePipeline, ResetPipeline. repeat split; intros; subst; try reflexivity;
    match goal with
    | Hs : type <> SEQUENCE_RANGE_PIPELINE, Ht : type <> TIME_INTERVAL_PIPELINE |- _ =>
        apply Ascii.eqb_neq in Hs; apply Ascii.eqb_neq in Ht; rewrite Hs, Ht; reflexivity
    end.
Qed.

(** What a reset writes, with the checkpoint writes of sequence.c and
    time_interval.c modelled from the specification: ResetPipeline passes 0 as
    the new checkpoint for both kinds, so the last-processed sequence value of
    a sequence pipeline becomes 0 and the last-processed boundary of a time
    interval pipeline becomes the timestamp 0, whatever start time the pipeline
    was created with.  No checkpoint row and no descriptor is removed, and for a
    permitted caller incremental_reset_pipeline returns with the descriptor in
    place. *)
Lemma ResetPipeline_writes_zero (name : string) (st : Backend) :
  (exists st',
      ResetPipeline name SEQUENCE_RANGE_PIPELINE st = Ok tt st' /\
      pipelines st' = pipelines st /\
      map seq_pipeline_name (sequence_pipelines st')
      = map seq_pipeline_name (sequence_pipelines st) /\
      forall r, In r (sequence_pipelines st') -> seq_pipeline_name r = name ->
                last_processed_sequence_number r = 0) /\
  (exists st',
      ResetPipeline name TIME_INTERVAL_PIPELINE st = Ok tt st' /\
      pipelines st' = pipelines st /\
      map ti_pipeline_name (time_interval_pipelines st')
      = map ti_pipeline_name (time_interval_pipelines st) /\
      forall r, In r (time_interval_pipelines st') -> ti_pipeline_name r = name ->
                last_processed_time r = 0) /\
  (forall row,
      pipeline_row name st = Some row ->
      superuser_arg (CurrentUserId st) = true \/ owner_id row = CurrentUserId st ->
      pipeline_type row = SEQUENCE_RANGE_PIPELINE \/
      pipeline_type row = TIME_INTERVAL_PIPELINE ->
      exists st',
        incremental_reset_pipeline name st = Ok tt st' /\
        pipeline_row name st' = Some row).
Proof.
  split; [|split].
  - eexists. split; [reflexivity|]. split; [reflexivity|].
    cbn [sequence_pipelines set_sequence_pipelines]. split.
    + rewrite map_map. apply map_ext. intros r.
      destruct (String.eqb (seq_pipeline_name r) name); reflexivity.
    + intros r Hin Hname. apply in_map_iff in Hin. destruct Hin as [r0 [Heq Hin]].
      destruct (String.eqb (seq_pipeline_name r0) name) eqn:E; subst r.
      * reflexivity.
      * apply String.eqb_neq in E. contradiction.
  - eexists. split; [reflexivity|]. split; [reflexivity|].
    cbn [time_interval_pipelines set_time_interval_pipelines]. split.
    + rewrite map_map. apply map_ext. intros r.
      destruct (String.eqb (ti_pipeline_name r) name); reflexivity.
    + intros r Hin Hname. apply in_map_iff in Hin. destruct Hin as [r0 [Heq Hin]].
      destruct (String.eqb (ti_pipeline_name r0) name) eqn:E; subst r.
      * reflexivity.
      * apply String.eqb_neq in E. contradiction.
  - intros row Hrow Hallowed Htype.
    unfold incremental_reset_pipeline.
    rewrite (entry_allowed name st row _ Hrow Hallowed).
    cbn [desc_of_row pipelineType]. unfold ResetPipeline.
    destruct Htype as [-> | ->]; eexists; (split; [reflexivity|exact Hrow]).
Qed.

(** C10 (as amended).  InsertPipeline records as owner the user identity that
    was current when it was called, read before the switch to the bootstrap
    superuser; the descriptor read back carries that owner.  The recorded owner
    is the bootstrap superuser exactly when the caller is the bootstrap
    superuser. *)
Theorem C10_owner_is_the_caller (name : string) (type : PipelineType)
        (sourceRelation : Oid) (cmd : string) (st : Backend) :
  pipeline_row name st = None ->
  exists st',
    InsertPipeline name type sourceRelation cmd st = Ok tt st' /\
    CurrentUserId st' = CurrentUserId st /\
    pipeline_row name st'
    = Some (mkPipelineRow name type (CurrentUserId st) sourceRelation cmd) /\
    exists pipelineDesc,
      ReadPipelineDesc name st' = Ok pipelineDesc st' /\
      ownerId pipelineDesc = CurrentUserId st /\
      (ownerId pipelineDesc = BOOTSTRAP_SUPERUSERID
       <-> CurrentUserId st = BOOTSTRAP_SUPERUSERID).
Proof.
  only_needed.
  intros Hfree.
  assert (Hnew : pipeline_row name
                   (set_pipelines
                      (pipelines st
                         ++ [mkPipelineRow name type (CurrentUserId st) sourceRelation cmd])
                      st)
                 = Some (mkPipelineRow name type (CurrentUserId st) sourceRelation cmd)).
  { unfold pipeline_row. cbn [pipelines set_pipelines]. rewrite filter_app.
    apply pipeline_row_none in Hfree. apply existsb_false_filter in Hfree.
    rewrite Hfree. simpl. now rewrite String.eqb_refl. }
  rewrite InsertPipeline_eq.
  apply pipeline_row_none in Hfree. rewrite Hfree.
  eexists. split; [reflexivity|]. split; [reflexivity|]. split; [exact Hnew|].
  eexists. split; [apply (ReadPipelineDesc_found _ _ _ Hnew)|].
  cbn [desc_of_row ownerId owner_id]. split; [reflexivity|tauto].
Qed.

(** ** Further properties of file-list pipelines *)

Lemma file_list_state_none (name : string) (st : Backend) :
  file_list_state name st = None
  <-> existsb (fun r => String.eqb (fl_pipeline_name r) name) (file_list_pipelines st) = false.
Proof.
  unfold file_list_state. rewrite existsb_false_filter.
  destruct (filter _ (file_list_pipelines st)); simpl; split; intros; congruence.
Qed.

Lemma insert_paths_settled (name : string) (paths : list string) :
  forall st, settled (insert_paths name paths st).
Proof.
  induction paths as [|path rest IH]; intros st; [exact I|].
  cbn [insert_paths]. unfold bind. rewrite InsertProcessedFile_eq.
  destruct (existsb _ (processed_files st)); [exact I|apply IH].
Qed.

Lemma run_units_settled (name cmd : string) (units : list WorkUnit) :
  forall st, settled (run_units name cmd units st).
Proof.
  induction units as [|u us IH]; intros st; [exact I|].
  cbn [run_units]. unfold bind at 1, run_unit, bind, ereport_NOTICE, SPI_execute_command.
  destruct (user_command cmd (unit_arg u)); [exact I|].
  pose proof (insert_paths_settled name (unit_paths u)
                (add_executed cmd (unit_arg u) (add_notice (unit_notice u) st))) as Hins.
  destruct (insert_paths name (unit_paths u) _); try contradiction; [apply IH|exact I].
Qed.

Lemma batched_loop_units (fuel : nat) (name cmd : string) (fileList : FileList)
      (st : Backend) :
  files fileList <> [] ->
  list_length (files fileList) <= MaxListLength ->
  maxBatchSize fileList <= INT_MAX ->
  (List.length (files fileList) < fuel)%nat ->
  batched_loop fuel name cmd fileList 0 st
  = run_units name cmd
      (if 0 <? maxBatchSize fileList
       then map (chunk_unit name)
                (chunks (Z.to_nat (maxBatchSize fileList)) (files fileList))
       else [chunk_unit name (files fileList)])
      st.
Proof.
  intros Hne Hlen Hk Hfuel.
  assert (Hpos : (0 < List.length (files fileList))%nat).
  { destruct (files fileList); [congruence | simpl; lia]. }
  destruct (0 <? maxBatchSize fileList) eqn:Hpositive.
  - apply Z.ltb_lt in Hpositive.
    pose proof (batched_loop_chunks name cmd fileList (conj Hpositive Hk) Hlen
                  (ceil_div (List.length (files fileList))
                            (Z.to_nat (maxBatchSize fileList)))
                  0%nat fuel st eq_refl) as Hloop.
    cbn [Nat.mul Z.of_nat] in Hloop. unfold chunks. apply Hloop.
    assert (HK : (0 < Z.to_nat (maxBatchSize fileList))%nat) by lia.
    pose proof (ceil_div_spec (List.length (files fileList)) _ HK) as [_ Hlast].
    specialize (Hlast Hpos).
    assert ((0 < ceil_div (List.length (files fileList))
                          (Z.to_nat (maxBatchSize fileList)))%nat)
      by (apply ceil_div_lt; lia).
    nia.
  - apply Z.ltb_ge in Hpositive.
    destruct fuel as [|fuel]; [lia|].
    now apply batched_loop_whole.
Qed.

(** X1.  The loops of ExecuteFileListPipeline end, and none reads the file list
    out of range.  For a file list as GetUnprocessedFilesForPipeline hands it
    over (a List of paths that is not empty and within the limit of a
    PostgreSQL List, a batch size within int), the do-while loop around
    ExecuteBatchedFileListPipeline, with the int arithmetic on its offset and
    the two for_each_from loops inside, returns or raises from offset 0 once
    the fuel exceeds the number of files, and so does the foreach loop of the
    unbatched case; each call of the user command is taken to return or
    raise. *)
Theorem file_list_loops_settle (fuel : nat) (name cmd : string) (fileList : FileList)
        (st : Backend) :
  files fileList <> [] ->
  list_length (files fileList) <= MaxListLength ->
  maxBatchSize fileList <= INT_MAX ->
  (List.length (files fileList) < fuel)%nat ->
  settled (batched_loop fuel name cmd fileList 0 st) /\
  settled (foreach_file name cmd (files fileList) st).
Proof.
  intros Hne Hlen Hk Hfuel. split.
  - rewrite (batched_loop_units fuel name cmd fileList st Hne Hlen Hk Hfuel).
    apply run_units_settled.
  - rewrite foreach_file_units. apply run_units_settled.
Qed.

(** X2.  Idempotent re-entry.  When every command completes, an execution leaves
    every enumerated item in the log, and a second execution right after it,
    with the enumerator's output unchanged, only reports that there are no
    files to process. *)
Theorem second_execution_is_noop (fuel : nat) (name cmd : string) (st : Backend)
        (row : FileListPipelineRow) :
  file_list_state name st = Some row ->
  NoDup (set_difference name (enumerated row) (processed_files st)) ->
  list_length (set_difference name (enumerated row) (processed_files st)) <= MaxListLength ->
  (forall k, max_batch_size row = Some k -> k <= INT_MAX) ->
  (forall arg, user_command cmd arg = None) ->
  (List.length (set_difference name (enumerated row) (processed_files st)) < fuel)%nat ->
  exists st',
    ExecuteFileListPipeline fuel name cmd st = Ok tt st' /\
    (forall path, In path (enumerated row) -> In (name, path) (processed_files st')) /\
    ExecuteFileListPipeline fuel name cmd st' = Ok tt (add_notice (no_files_notice name) st').
Proof.
  intros Hrow Hnd Hlen Hint Hok Hfuel.
  assert (Hk : read_max_batch_size row <= INT_MAX).
  { unfold read_max_batch_size. destruct (max_batch_size row) as [k|].
    - now apply Hint.
    - unfold INT_MAX. lia. }
  assert (Hnoop : forall st',
             file_list_state name st' = Some row ->
             set_difference name (enumerated row) (processed_files st') = [] ->
             ExecuteFileListPipeline fuel name cmd st'
             = Ok tt (add_notice (no_files_notice name) st')).
  { intros st' Hrow' Hempty. unfold ExecuteFileListPipeline, bind.
    rewrite (GetUnprocessedFilesForPipeline_found _ _ _ Hrow').
    cbn [files]. rewrite Hempty. reflexivity. }
  assert (Hall : forall log,
             set_difference name (enumerated row) log = [] ->
             forall path, In path (enumerated row) -> In (name, path) log).
  { intros log Hempty path Hin.
    destruct (existsb (processed_as name path) log) eqn:E.
    - now apply processed_as_In.
    - assert (Hd : In path (set_difference name (enumerated row) log)).
      { apply set_difference_In. split; [exact Hin|]. now apply processed_as_not_In. }
      rewrite Hempty in Hd. contradiction. }
  destruct (set_difference name (enumerated row) (processed_files st)) as [|p l] eqn:Hd.
  - exists (add_notice (no_files_notice name) st).
    split; [now apply Hnoop|]. split.
    + now apply Hall.
    + now apply Hnoop.
  - set (units := work_units name
                    (mkFileList (p :: l) (fl_batched row) (read_max_batch_size row))).
    assert (Hpaths : paths_of units = p :: l) by apply paths_of_work_units.
    assert (Hempty : set_difference name (enumerated row)
                       (processed_files (after_units name cmd units st)) = []).
    { cbn [after_units processed_files]. rewrite Hpaths.
      apply set_difference_logged; [|now rewrite app_nil_r].
      rewrite Hd. symmetry. apply app_nil_r. }
    exists (after_units name cmd units st). split; [|split].
    + rewrite (ExecuteFileListPipeline_units fuel name cmd st row Hrow);
        rewrite ?Hd; try assumption; try discriminate.
      fold units. apply run_units_complete.
      * intros u _. apply Hok.
      * rewrite Hpaths. exact Hnd.
      * rewrite Hpaths, <- Hd. intros path Hin. now apply set_difference_In in Hin.
    + now apply Hall.
    + now apply Hnoop.
Qed.

(** X3.  The state written by InitializeFileListPipelineState is the state an
    execution reads: the batched flag as given, and the batch size as given
    when it is positive, -1 (no limit) otherwise. *)
Theorem initialized_state_is_read_back (name pattern : string) (isBatched : bool)
        (listFunction : string) (maxBatch : Z) (st : Backend) :
  file_list_state name st = None ->
  exists st' fileList,
    InitializeFileListPipelineState name pattern isBatched listFunction maxBatch st
    = Ok tt st' /\
    GetUnprocessedFilesForPipeline name st' = Ok fileList st' /\
    batched fileList = isBatched /\
    maxBatchSize fileList = (if 0 <? maxBatch then maxBatch else -1) /\
    files fileList
    = set_difference name (call_list_function listFunction pattern) (processed_files st).
Proof.
  intros Hfree.
  set (row := mkFileListPipelineRow name pattern isBatched listFunction
                (if 0 <? maxBatch then Some maxBatch else None)).
  assert (Hnew : file_list_state name
                   (set_file_list_pipelines (file_list_pipelines st ++ [row]) st)
                 = Some row).
  { unfold file_list_state. cbn [file_list_pipelines set_file_list_pipelines].
    rewrite filter_app.
    apply file_list_state_none in Hfree. apply existsb_false_filter in Hfree.
    rewrite Hfree. simpl. now rewrite String.eqb_refl. }
  rewrite InitializeFileListPipelineState_eq.
  apply file_list_state_none in Hfree. rewrite Hfree.
  eexists. eexists. split; [reflexivity|].
  split; [apply (GetUnprocessedFilesForPipeline_found _ _ _ Hnew)|].
  cbn [batched maxBatchSize files]. split; [reflexivity|]. split.
  - unfold read_max_batch_size, row. cbn [max_batch_size].
    destruct (0 <? maxBatch); reflexivity.
  - reflexivity.
Qed.

(** ** Unbatched and batched executions *)

(** X5.  A file-list pipeline that is not batched, with distinct unprocessed
    files on each of which the command completes: the command is executed once
    per file, in the order of the delta, with the path as its text argument, and
    each file is logged; an empty delta executes nothing.  No bound on the
    length of the list is needed. *)
Theorem unbatched_execution_covers_delta (fuel : nat) (name cmd : string)
        (st : Backend) (row : FileListPipelineRow) :
  file_list_state name st = Some row ->
  fl_batched row = false ->
  NoDup (set_difference name (enumerated row) (processed_files st)) ->
  (forall path,
      In path (set_difference name (enumerated row) (processed_files st)) ->
      user_command cmd (TextArg path) = None) ->
  exists st',
    ExecuteFileListPipeline fuel name cmd st = Ok tt st' /\
    executed st'
    = executed st
        ++ map (fun path => (cmd, TextArg path))
               (set_difference name (enumerated row) (processed_files st)) /\
    processed_files st'
    = processed_files st
        ++ map (pair name) (set_difference name (enumerated row) (processed_files st)) /\
    CurrentUserId st' = CurrentUserId st /\
    SecurityRestrictionContext st' = SecurityRestrictionContext st.
Proof.
  intros Hrow Hbatched Hnd Hok.
  unfold ExecuteFileListPipeline, bind.
  rewrite (GetUnprocessedFilesForPipeline_found _ _ _ Hrow).
  cbn [files batched]. rewrite Hbatched.
  set (delta := set_difference name (enumerated row) (processed_files st)) in *.
  destruct delta as [|p l] eqn:Hdelta.
  - eexists. split; [reflexivity|]. cbn. rewrite !app_nil_r. auto.
  - rewrite <- Hdelta in *. clear Hdelta.
    exists (after_units name cmd (map (file_unit name) delta) st). split.
    + rewrite foreach_file_units. apply run_units_complete.
      * intros u Hu. apply in_map_iff in Hu. destruct Hu as [path [<- Hpath]].
        now apply Hok.
      * now rewrite paths_of_file_units.
      * rewrite paths_of_file_units. intros path Hin.
        unfold delta in Hin. now apply set_difference_In in Hin.
    + cbn [after_units executed processed_files CurrentUserId SecurityRestrictionContext].
      rewrite paths_of_file_units, map_map. cbn [file_unit unit_arg]. auto.
Qed.

(** X6.  The log a completed execution leaves does not depend on the batching:
    batched or not, and whatever the batch size, when every command call
    completes the log is the old log followed by the delta in its order, and
    the caller's identity and security context are as before. *)
Theorem completed_execution_logs_the_delta (fuel : nat) (name cmd : string)
        (st : Backend) (row : FileListPipelineRow) :
  file_list_state name st = Some row ->
  NoDup (set_difference name (enumerated row) (processed_files st)) ->
  list_length (set_difference name (enumerated row) (processed_files st)) <= MaxListLength ->
  (forall k, max_batch_size row = Some k -> k <= INT_MAX) ->
  (forall arg, user_command cmd arg = None) ->
  (List.length (set_difference name (enumerated row) (processed_files st)) < fuel)%nat ->
  exists st',
    ExecuteFileListPipeline fuel name cmd st = Ok tt st' /\
    processed_files st'
    = processed_files st
        ++ map (pair name) (set_difference name (enumerated row) (processed_files st)) /\
    CurrentUserId st' = CurrentUserId st /\
    SecurityRestrictionContext st' = SecurityRestrictionContext st.
Proof.
  intros Hrow Hnd Hlen Hint Hok Hfuel.
  assert (Hk : read_max_batch_size row <= INT_MAX).
  { unfold read_max_batch_size. destruct (max_batch_size row) as [k|].
    - now apply Hint.
    - unfold INT_MAX. lia. }
  destruct (set_difference name (enumerated row) (processed_files st)) as [|p l] eqn:Hd.
  - exists (add_notice (no_files_notice name) st). split.
    + unfold ExecuteFileListPipeline, bind.
      rewrite (GetUnprocessedFilesForPipeline_found _ _ _ Hrow).
      cbn [files]. rewrite Hd. reflexivity.
    + cbn. rewrite app_nil_r. auto.
  - set (units := work_units name
                    (mkFileList (p :: l) (fl_batched row) (read_max_batch_size row))).
    assert (Hpaths : paths_of units = p :: l) by apply paths_of_work_units.
    exists (after_units name cmd units st). split.
    + rewrite (ExecuteFileListPipeline_units fuel name cmd st row Hrow);
        rewrite ?Hd; try assumption; try discriminate.
      fold units. apply run_units_complete.
      * intros u _. apply Hok.
      * rewrite Hpaths. exact Hnd.
      * rewrite Hpaths, <- Hd. intros path Hin. now apply set_difference_In in Hin.
    + cbn [after_units processed_files CurrentUserId SecurityRestrictionContext].
      rewrite Hpaths. auto.
Qed.

(** X7.  The user command runs outside the switch to the bootstrap superuser:
    when the command of a unit raises after the earlier ones completed, the
    error leaves ExecuteFileListPipeline with the caller's own user identity and
    security context current, and with that command as the last one executed. *)
Theorem command_failure_leaves_caller_identity
        (fuel : nat) (name cmd : string) (st : Backend) (row : FileListPipelineRow)
        (before : list WorkUnit) (u : WorkUnit) (after : list WorkUnit) (e : ErrorData) :
  file_list_state name st = Some row ->
  set_difference name (enumerated row) (processed_files st) <> [] ->
  NoDup (set_difference name (enumerated row) (processed_files st)) ->
  list_length (set_difference name (enumerated row) (processed_files st)) <= MaxListLength ->
  (forall k, max_batch_size row = Some k -> k <= INT_MAX) ->
  (List.length (set_difference name (enumerated row) (processed_files st)) < fuel)%nat ->
  work_units name
    (mkFileList (set_difference name (enumerated row) (processed_files st))
                (fl_batched row) (read_max_batch_size row))
  = before ++ u :: after ->
  (forall v, In v before -> user_command cmd (unit_arg v) = None) ->
  user_command cmd (unit_arg u) = Some e ->
  exists raised,
    ExecuteFileListPipeline fuel name cmd st = Raise e raised /\
    CurrentUserId raised = CurrentUserId st /\
    SecurityRestrictionContext raised = SecurityRestrictionContext st /\
    executed raised
    = executed st ++ map (fun v => (cmd, unit_arg v)) (before ++ [u]).
Proof.
  intros Hrow Hne Hnd Hlen Hint Hfuel Hsplit Hbefore Hfail.
  assert (Hk : read_max_batch_size row <= INT_MAX).
  { unfold read_max_batch_size. destruct (max_batch_size row) as [k|].
    - now apply Hint.
    - unfold INT_MAX. lia. }
  assert (Hpaths : paths_of before ++ paths_of (u :: after)
                   = set_difference name (enumerated row) (processed_files st)).
  { rewrite <- paths_of_app, <- Hsplit. apply (paths_of_work_units name). }
  exists (failed_at name cmd before u st). split.
  - rewrite (ExecuteFileListPipeline_units fuel name cmd st row Hrow Hne Hlen Hk Hfuel).
    rewrite Hsplit. apply run_units_fail.
    + exact Hbefore.
    + exact Hfail.
    + rewrite <- Hpaths in Hnd. exact (NoDup_app_remove_r _ _ Hnd).
    + intros path Hin.
      assert (Hd : In path (set_difference name (enumerated row) (processed_files st)))
        by (rewrite <- Hpaths; apply in_or_app; now left).
      now apply set_difference_In in Hd.
  - cbn [failed_at add_executed add_notice after_units executed
         CurrentUserId SecurityRestrictionContext].
    rewrite map_app, <- app_assoc. auto.
Qed.

(** ** The log and the delta *)

Lemma set_difference_without_own_rows (name : string) (current : list string)
      (log : list ProcessedFileRow) :
  set_difference name current (filter (fun r => negb (String.eqb (fst r) name)) log)
  = current.
Proof.
  only_needed.
  unfold set_difference.
  assert (Hnone : forall path,
             existsb (processed_as name path)
                     (filter (fun r => negb (String.eqb (fst r) name)) log) = false).
  { intros path. induction log as [|r l IH]; simpl; [reflexivity|].
    destruct (String.eqb (fst r) name) eqn:E; simpl; [exact IH|].
    rewrite IH. unfold processed_as. now rewrite E. }
  induction current as [|p l IH]; simpl; [reflexivity|].
  rewrite Hnone. simpl. now rewrite IH.
Qed.

Lemma set_difference_without_other_rows (name other : string) (current : list string)
      (log : list ProcessedFileRow) :
  other <> name ->
  set_difference other current (filter (fun r => negb (String.eqb (fst r) name)) log)
  = set_difference other current log.
Proof.
  only_needed.
  intros Hother. unfold set_difference. apply filter_ext. intros path. f_equal.
  induction log as [|r l IH]; simpl; [reflexivity|].
  destruct (String.eqb (fst r) name) eqn:E; simpl.
  - rewrite IH. unfold processed_as. apply String.eqb_eq in E. rewrite E.
    apply String.eqb_neq in Hother. rewrite String.eqb_sym, Hother. reflexivity.
  - now rewrite IH.
Qed.

(** X8.  Removing the log of a pipeline makes all of its source unprocessed
    again: after a RemoveProcessedFileList that returned, the unprocessed files
    of the pipeline are the whole output of the list function, and the
    unprocessed files of every other pipeline are what they were. *)
Theorem removed_log_makes_everything_unprocessed (name : string) (st : Backend) :
  has_processed_files name st = true ->
  exists st',
    RemoveProcessedFileList name st = Ok tt st' /\
    (forall listFunction filePattern,
        GetUnprocessedFileList name listFunction filePattern st'
        = Ok (call_list_function listFunction filePattern) st') /\
    (forall other listFunction filePattern,
        other <> name ->
        exists paths,
          GetUnprocessedFileList other listFunction filePattern st = Ok paths st /\
          GetUnprocessedFileList other listFunction filePattern st' = Ok paths st').
Proof.
  intros Hany. rewrite RemoveProcessedFileList_eq, Hany.
  eexists. split; [reflexivity|]. split.
  - intros listFunction filePattern. rewrite GetUnprocessedFileList_eq.
    cbn [processed_files set_processed_files].
    now rewrite set_difference_without_own_rows.
  - intros other listFunction filePattern Hother.
    eexists. rewrite !GetUnprocessedFileList_eq.
    cbn [processed_files set_processed_files].
    rewrite (set_difference_without_other_rows name other _ _ Hother).
    split; reflexivity.
Qed.


(** ** The registry: insert, read, delete *)

Lemma filter_other_names (name other : string) (rows : list PipelineRow) :
  other <> name ->
  filter (fun r => String.eqb (pipeline_name r) other)
         (filter (fun r => negb (String.eqb (pipeline_name r) name)) rows)
  = filter (fun r => String.eqb (pipeline_name r) other) rows.
Proof.
  only_needed.
  intros Hother. induction rows as [|r l IH]; simpl; [reflexivity|].
  destruct (String.eqb (pipeline_name r) name) eqn:E; simpl.
  - apply String.eqb_eq in E. rewrite E.
    apply String.eqb_neq in Hother. rewrite String.eqb_sym, Hother. exact IH.
  - now rewrite IH.
Qed.

Lemma filter_own_name_gone (name : string) (rows : list PipelineRow) :
  filter (fun r => String.eqb (pipeline_name r) name)
         (filter (fun r => negb (String.eqb (pipeline_name r) name)) rows)
  = [].
Proof.
  only_needed.
  induction rows as [|r l IH]; simpl; [reflexivity|].
  destruct (String.eqb (pipeline_name r) name) eqn:E; simpl; [exact IH|].
  now rewrite E.
Qed.

Lemma set_pipelines_same (st : Backend) : set_pipelines (pipelines st) st = st.
Proof. only_needed. destruct st; reflexivity. Qed.

(** X10.  DeletePipeline never fails on a missing descriptor: it returns for
    every name, leaves no descriptor of that name and every descriptor of
    another name as it was, and changes nothing at all when there was no such
    descriptor; a second call is therefore a no-op.  Reading the deleted name
    then raises "no such pipeline". *)
Theorem DeletePipeline_is_idempotent (name : string) (st : Backend) :
  exists st',
    DeletePipeline name st = Ok tt st' /\
    pipeline_row name st' = None /\
    (forall other, other <> name -> pipeline_row other st' = pipeline_row other st) /\
    (pipeline_row name st = None -> st' = st) /\
    DeletePipeline name st' = Ok tt st' /\
    ReadPipelineDesc name st' = Raise (no_such_pipeline name) (elevated st').
Proof.
  only_needed.
  assert (Hnoop : forall s, pipeline_row name s = None -> DeletePipeline name s = Ok tt s).
  { intros s Hnone. rewrite DeletePipeline_eq.
    apply pipeline_row_none in Hnone.
    rewrite (filter_negb_all _ _ Hnone). now rewrite set_pipelines_same. }
  assert (Hgone : pipeline_row name
                    (set_pipelines
                       (filter (fun r => negb (String.eqb (pipeline_name r) name))
                               (pipelines st)) st) = None).
  { unfold pipeline_row. cbn [pipelines set_pipelines].
    now rewrite filter_own_name_gone. }
  rewrite DeletePipeline_eq. eexists. split; [reflexivity|].
  split; [exact Hgone|]. split; [|split; [|split]].
  - intros other Hother. unfold pipeline_row. cbn [pipelines set_pipelines].
    now rewrite filter_other_names.
  - intros Hnone. apply pipeline_row_none in Hnone.
    rewrite (filter_negb_all _ _ Hnone). apply set_pipelines_same.
  - now apply Hnoop.
  - now apply ReadPipelineDesc_missing.
Qed.

(** X11.  When no descriptor of the name exists, execute, reset and drop all
    raise "no such pipeline named ..." (undefined object) from the descriptor
    read: the ownership check, the strategies, the delete and the scheduler are
    not reached, and no table has changed. *)
Theorem entry_points_need_a_descriptor (name : string) (st : Backend) :
  pipeline_row name st = None ->
  incremental_execute_pipeline name st = Raise (no_such_pipeline name) (elevated st) /\
  incremental_reset_pipeline name st = Raise (no_such_pipeline name) (elevated st) /\
  incremental_drop_pipeline name st = Raise (no_such_pipeline name) (elevated st) /\
  pipelines (elevated st) = pipelines st /\
  processed_files (elevated st) = processed_files st /\
  notices (elevated st) = notices st /\
  executed (elevated st) = executed st.
Proof.
  intros Hnone.
  unfold incremental_execute_pipeline, incremental_reset_pipeline,
    incremental_drop_pipeline, bind.
  rewrite (ReadPipelineDesc_missing _ _ Hnone). repeat split; reflexivity.
Qed.

(** X12.  Insert and delete compose to nothing: for a name that is free,
    InsertPipeline followed by DeletePipeline gives back the backend it started
    from, and InsertPipeline itself leaves the descriptor of every other name
    as it was. *)
Theorem InsertPipeline_then_DeletePipeline (name : string) (type : PipelineType)
        (sourceRelation : Oid) (cmd : string) (st : Backend) :
  pipeline_row name st = None ->
  exists st',
    InsertPipeline name type sourceRelation cmd st = Ok tt st' /\
    (forall other, other <> name -> pipeline_row other st' = pipeline_row other st) /\
    DeletePipeline name st' = Ok tt st.
Proof.
  only_needed.
  intros Hfree. apply pipeline_row_none in Hfree.
  rewrite InsertPipeline_eq, Hfree. eexists. split; [reflexivity|]. split.
  - intros other Hother. unfold pipeline_row. cbn [pipelines set_pipelines].
    rewrite filter_app. cbn [filter pipeline_name].
    apply String.eqb_neq in Hother. rewrite String.eqb_sym, Hother.
    now rewrite app_nil_r.
  - rewrite DeletePipeline_eq. cbn [pipelines set_pipelines].
    rewrite filter_app, (filter_negb_all _ _ Hfree).
    cbn [filter pipeline_name]. rewrite String.eqb_refl. cbn [negb].
    rewrite app_nil_r. destruct st; reflexivity.
Qed.

(** X13.  A dropped pipeline is gone for every entry point: when the owner or a
    superuser drops a pipeline and the scheduler call returns without touching
    the descriptors, the drop returns, and execute, reset and a second drop of
    the same name raise "no such pipeline". *)
Theorem dropped_pipeline_is_gone (name : string) (st : Backend) (row : PipelineRow) :
  pipeline_row name st = Some row ->
  superuser_arg (CurrentUserId st) = true \/ owner_id row = CurrentUserId st ->
  (forall jobName s, exists s',
        UnscheduleCronJob jobName s = Ok tt s' /\ pipelines s' = pipelines s) ->
  exists st',
    incremental_drop_pipeline name st = Ok tt st' /\
    pipeline_row name st' = None /\
    incremental_execute_pipeline name st' = Raise (no_such_pipeline name) (elevated st') /\
    incremental_reset_pipeline name st' = Raise (no_such_pipeline name) (elevated st') /\
    incremental_drop_pipeline name st' = Raise (no_such_pipeline name) (elevated st').
Proof.
  intros Hrow Hallowed Hcron.
  unfold incremental_drop_pipeline at 1.
  rewrite (entry_allowed name st row _ Hrow Hallowed).
  unfold bind at 1. rewrite DeletePipeline_eq.
  destruct (Hcron (GetCronJobNameForPipeline name)
                  (set_pipelines
                     (filter (fun r => negb (String.eqb (pipeline_name r) name))
                             (pipelines st)) st))
    as [st' [Hun Hsame]].
  rewrite Hun. exists st'. split; [reflexivity|].
  assert (Hgone : pipeline_row name st' = None).
  { unfold pipeline_row. rewrite Hsame. cbn [pipelines set_pipelines].
    now rewrite filter_own_name_gone. }
  split; [exact Hgone|].
  unfold incremental_execute_pipeline, incremental_reset_pipeline,
    incremental_drop_pipeline, bind.
  rewrite (ReadPipelineDesc_missing _ _ Hgone). repeat split; reflexivity.
Qed.

(** X14.  Two pipelines never share a cron job name: the job name determines
    the pipeline name. *)
Theorem cron_job_name_determines_pipeline (name other : string) :
  GetCronJobNameForPipeline name = GetCronJobNameForPipeline other -> name = other.
Proof.
  only_needed.
  unfold GetCronJobNameForPipeline. cbn [String.append]. intros H.
  now repeat injection H as H.
Qed.

(** ** Creating a pipeline *)

Lemma resolve_sequence_accepts (arg table sequence : Oid) (st : Backend) :
  names_sequence arg table sequence st ->
  resolve_sequence arg st = Ok (table, sequence) st.
Proof.
  unfold names_sequence, resolve_sequence.
  intros [[Hkind [-> [col Howned]]] | [Hkind [-> Hfound]]].
  - rewrite Hkind, Howned. reflexivity.
  - assert (Ascii.eqb (get_rel_relkind arg) RELKIND_SEQUENCE = false
            /\ (Ascii.eqb (get_rel_relkind arg) RELKIND_RELATION
                || Ascii.eqb (get_rel_relkind arg) RELKIND_FOREIGN_TABLE
                || Ascii.eqb (get_rel_relkind arg) RELKIND_PARTITIONED_TABLE) = true)
      as [Hseq Htable].
    { cbn [In] in Hkind. destruct Hkind as [<- | [<- | [<- | []]]]; split; reflexivity. }
    rewrite Hseq, Htable. unfold bind. rewrite Hfound. reflexivity.
Qed.

Lemma create_sequence_reaches_tail (name : string) (arg table sequence : Oid)
      (text sanitized : string) (parsedQuery : Query) (schedule : option string)
      (executeImmediately : option bool) (st : Backend) :
  names_sequence arg table sequence st ->
  ParseQuery text [INT8OID; INT8OID] st = Ok parsedQuery st ->
  DeparseQuery parsedQuery st = Ok sanitized st ->
  pipeline_row name st = None ->
  incremental_create_sequence_pipeline (Some name) (Some arg) (Some text) schedule
                                       executeImmediately st
  = bind (InitializeSequencePipelineState name sequence)
         (fun _ =>
            execute_and_schedule name SEQUENCE_RANGE_PIPELINE sanitized
              match executeImmediately with Some b => b | None => false end
              schedule)
         (set_pipelines
            (pipelines st
               ++ [mkPipelineRow name SEQUENCE_RANGE_PIPELINE (CurrentUserId st) table
                                 sanitized])
            st).
Proof.
  intros Hnames Hparse Hdeparse Hfree.
  apply resolve_sequence_accepts in Hnames. apply pipeline_row_none in Hfree.
  unfold incremental_create_sequence_pipeline.
  unfold bind at 1. rewrite Hnames. cbn [fst snd].
  unfold bind at 1. rewrite Hparse.
  unfold bind at 1. rewrite Hdeparse.
  unfold bind at 1. rewrite InsertPipeline_eq, Hfree. reflexivity.
Qed.

Lemma pipeline_row_inserted (name : string) (row : PipelineRow) (st s : Backend) :
  pipeline_row name st = None ->
  pipeline_name row = name ->
  pipelines s = pipelines st ++ [row] ->
  pipeline_row name s = Some row /\
  forall other, other <> name -> pipeline_row other s = pipeline_row other st.
Proof.
  only_needed.
  intros Hfree Hname Hrows. unfold pipeline_row in *. rewrite Hrows. split.
  - rewrite filter_app. cbn [filter]. rewrite Hname, String.eqb_refl.
    destruct (filter _ (pipelines st)); [reflexivity | discriminate].
  - intros other Hother. rewrite filter_app. cbn [filter]. rewrite Hname.
    apply String.eqb_neq in Hother. rewrite String.eqb_sym, Hother.
    now rewrite app_nil_r.
Qed.

(** X15.  incremental_create_sequence_pipeline checks its arguments before it
    writes anything: a NULL pipeline name, sequence name or command, in this
    order, a sequence that no table owns, and a relation that is neither a
    sequence nor a table, foreign table or partitioned table each raise their
    own error with the backend exactly as it was given, whatever the schedule
    and the execute_immediately argument are. *)
Theorem create_sequence_pipeline_checks_before_writing
        (pipelineName : option string) (sequenceName : option Oid)
        (cmd schedule : option string) (executeImmediately : option bool)
        (st : Backend) :
  (pipelineName = None ->
   rejects (incremental_create_sequence_pipeline pipelineName sequenceName cmd schedule
                                                 executeImmediately)
           st ERRCODE_INTERNAL_ERROR "pipeline_name cannot be NULL") /\
  (pipelineName <> None -> sequenceName = None ->
   rejects (incremental_create_sequence_pipeline pipelineName sequenceName cmd schedule
                                                 executeImmediately)
           st ERRCODE_INTERNAL_ERROR "sequence_name cannot be NULL") /\
  (pipelineName <> None -> sequenceName <> None -> cmd = None ->
   rejects (incremental_create_sequence_pipeline pipelineName sequenceName cmd schedule
                                                 executeImmediately)
           st ERRCODE_INTERNAL_ERROR "command cannot be NULL") /\
  (forall sequenceId,
      pipelineName <> None -> sequenceName = Some sequenceId -> cmd <> None ->
      get_rel_relkind sequenceId = RELKIND_SEQUENCE ->
      sequenceIsOwned sequenceId DEPENDENCY_AUTO = None ->
      rejects (incremental_create_sequence_pipeline pipelineName sequenceName cmd schedule
                                                    executeImmediately)
              st ERRCODE_FEATURE_NOT_SUPPORTED
              "enly sequences that are owned by a table are supported") /\
  (forall sequenceId,
      pipelineName <> None -> sequenceName = Some sequenceId -> cmd <> None ->
      ~ In (get_rel_relkind sequenceId)
           [RELKIND_SEQUENCE; RELKIND_RELATION; RELKIND_FOREIGN_TABLE;
            RELKIND_PARTITIONED_TABLE] ->
      rejects (incremental_create_sequence_pipeline pipelineName sequenceName cmd schedule
                                                    executeImmediately)
              st ERRCODE_FEATURE_NOT_SUPPORTED
              (String.append (format_cstring (get_rel_name sequenceId))
                             " is not a table or sequence")).
Proof.
  unfold rejects.
  repeat apply conj.
  - intros ->. reflexivity.
  - intros Hname ->. destruct pipelineName; [reflexivity | congruence].
  - intros Hname Hseq ->.
    destruct pipelineName; [|congruence]. destruct sequenceName; [reflexivity | congruence].
  - intros sequenceId Hname -> Hcmd Hkind Howned.
    destruct pipelineName; [|congruence]. destruct cmd; [|congruence].
    unfold incremental_create_sequence_pipeline, bind, resolve_sequence.
    rewrite Hkind, Howned. reflexivity.
  - intros sequenceId Hname -> Hcmd Hkind.
    destruct pipelineName; [|congruence]. destruct cmd; [|congruence].
    unfold incremental_create_sequence_pipeline, bind, resolve_sequence.
    cbn [In] in Hkind.
    destruct (Ascii.eqb_spec (get_rel_relkind sequenceId) RELKIND_SEQUENCE) as [E|_];
      [exfalso; apply Hkind; auto|].
    destruct (Ascii.eqb_spec (get_rel_relkind sequenceId) RELKIND_RELATION) as [E|_];
      [exfalso; apply Hkind; auto|].
    destruct (Ascii.eqb_spec (get_rel_relkind sequenceId) RELKIND_FOREIGN_TABLE) as [E|_];
      [exfalso; apply Hkind; auto|].
    destruct (Ascii.eqb_spec (get_rel_relkind sequenceId) RELKIND_PARTITIONED_TABLE)
      as [E|_]; [exfalso; apply Hkind; auto 6|].
    reflexivity.
Qed.

(** X16.  incremental_create_time_interval_pipeline checks its arguments before
    it parses the command or writes anything: a NULL pipeline name, time
    interval, command or min_delay, in this order, raise their own error, and
    so does a NULL start_time unless the pipeline is batched (a NULL batched
    argument counts as not batched); the backend is exactly as it was given. *)
Theorem create_time_interval_pipeline_checks_before_writing
        (pipelineName : option string) (timeInterval : option Z) (cmd : option string)
        (batched : option bool) (startTime : option Z) (relation : option Oid)
        (schedule : option string) (minDelay : option Z)
        (executeImmediately : option bool) (st : Backend) :
  (pipelineName = None ->
   rejects (incremental_create_time_interval_pipeline
              pipelineName timeInterval cmd batched startTime relation schedule minDelay
              executeImmediately)
           st ERRCODE_INTERNAL_ERROR "pipeline_name cannot be NULL") /\
  (pipelineName <> None -> timeInterval = None ->
   rejects (incremental_create_time_interval_pipeline
              pipelineName timeInterval cmd batched startTime relation schedule minDelay
              executeImmediately)
           st ERRCODE_INTERNAL_ERROR "time_interval cannot be NULL") /\
  (pipelineName <> None -> timeInterval <> None -> cmd = None ->
   rejects (incremental_create_time_interval_pipeline
              pipelineName timeInterval cmd batched startTime relation schedule minDelay
              executeImmediately)
           st ERRCODE_INTERNAL_ERROR "command cannot be NULL") /\
  (pipelineName <> None -> timeInterval <> None -> cmd <> None -> minDelay = None ->
   rejects (incremental_create_time_interval_pipeline
              pipelineName timeInterval cmd batched startTime relation schedule minDelay
              executeImmediately)
           st ERRCODE_INTERNAL_ERROR "min_delay cannot be NULL") /\
  (pipelineName <> None -> timeInterval <> None -> cmd <> None -> minDelay <> None ->
   startTime = None -> batched <> Some true ->
   rejects (incremental_create_time_interval_pipeline
              pipelineName timeInterval cmd batched startTime relation schedule minDelay
              executeImmediately)
           st ERRCODE_FEATURE_NOT_SUPPORTED
           "start_time is required for non-batched pipelines").
Proof.
  unfold rejects.
  repeat apply conj.
  - intros ->. reflexivity.
  - intros Hname ->. destruct pipelineName; [reflexivity | congruence].
  - intros Hname Hinterval ->.
    destruct pipelineName; [|congruence]. destruct timeInterval; [reflexivity | congruence].
  - intros Hname Hinterval Hcmd ->.
    destruct pipelineName; [|congruence]. destruct timeInterval; [|congruence].
    destruct cmd; [reflexivity | congruence].
  - intros Hname Hinterval Hcmd Hdelay -> Hbatched.
    destruct pipelineName; [|congruence]. destruct timeInterval; [|congruence].
    destruct cmd; [|congruence]. destruct minDelay; [|congruence].
    destruct batched as [[|]|]; [congruence | reflexivity | reflexivity].
Qed.

(** X17.  A created sequence pipeline is registered under the caller: when the
    argument is a sequence owned by a table, or a table with its sequence, the
    command parses, the name is free and the state initialisation returns
    without touching the descriptors, a creation without first execution and
    without schedule returns, and the descriptor of the new name has type 's',
    the caller as owner, the table (not the sequence) as source relation and
    the deparsed command (not the text given) as command; the descriptors of
    other names are as before. *)
Theorem created_sequence_pipeline_is_registered
        (name : string) (arg table sequence : Oid) (text sanitized : string)
        (parsedQuery : Query) (executeImmediately : option bool) (st : Backend) :
  names_sequence arg table sequence st ->
  ParseQuery text [INT8OID; INT8OID] st = Ok parsedQuery st ->
  DeparseQuery parsedQuery st = Ok sanitized st ->
  pipeline_row name st = None ->
  (forall s, exists s',
        InitializeSequencePipelineState name sequence s = Ok tt s' /\
        pipelines s' = pipelines s) ->
  executeImmediately <> Some true ->
  exists st',
    incremental_create_sequence_pipeline (Some name) (Some arg) (Some text) None
                                         executeImmediately st = Ok tt st' /\
    pipeline_row name st'
    = Some (mkPipelineRow name SEQUENCE_RANGE_PIPELINE (CurrentUserId st) table
                          sanitized) /\
    forall other, other <> name -> pipeline_row other st' = pipeline_row other st.
Proof.
  intros Hnames Hparse Hdeparse Hfree Hinit Hexec.
  rewrite (create_sequence_reaches_tail _ _ _ _ _ _ _ _ _ _ Hnames Hparse Hdeparse Hfree).
  match goal with |- context [bind _ _ ?s] => destruct (Hinit s) as [s' [Hs' Hrows]] end.
  exists s'. split.
  - unfold bind at 1. rewrite Hs'. unfold execute_and_schedule, bind, ret.
    destruct executeImmediately as [[|]|]; [congruence | reflexivity | reflexivity].
  - apply pipeline_row_inserted; [exact Hfree | reflexivity |].
    rewrite Hrows. reflexivity.
Qed.


End Engine.

(** * Scenarios *)

Ltac distinct_strings :=
  repeat (constructor;
          [ simpl; intros H;
            repeat (destruct H as [H|H]; [discriminate H|]); exact H
          | ]);
  constructor.

Lemma csv_files_distinct : NoDup csv_files.
Proof. unfold csv_files. distinct_strings. Qed.

(** ** C1 *)

Lemma C1_witness :
  file_list_state "csv" (csv_backend alice true (Some 2) [("csv", "a.csv")]%string)
  = Some (csv_state true (Some 2)) /\
  exists fileList,
    GetUnprocessedFilesForPipeline list_csv "csv"
      (csv_backend alice true (Some 2) [("csv", "a.csv")]%string)
    = Ok fileList (csv_backend alice true (Some 2) [("csv", "a.csv")]%string) /\
    files fileList = ["b.csv"; "c.csv"]%string.
Proof.
  split; [reflexivity|].
  destruct (C1_delta_is_set_difference list_csv "csv"
              (csv_backend alice true (Some 2) [("csv", "a.csv")]%string)
              (csv_state true (Some 2)) eq_refl)
    as [fileList [Hrun [_ [_ Hfiles]]]].
  exists fileList. split; [exact Hrun|]. rewrite Hfiles. reflexivity.
Defined.

(** ** C9 *)

Lemma C9_witness :
  file_list_state "csv" (csv_backend alice true (Some 2) all_logged)
  = Some (csv_state true (Some 2)) /\
  exists st',
    ExecuteFileListPipeline list_csv command_fails_on_b 0 "csv" "select $1"
      (csv_backend alice true (Some 2) all_logged) = Ok tt st' /\
    executed st' = [] /\
    processed_files st' = all_logged /\
    notices st' = ["pipeline csv: no files to process"%string].
Proof.
  split; [reflexivity|].
  destruct (C9_empty_delta_is_noop list_csv command_fails_on_b 0 "csv" "select $1"
              (csv_backend alice true (Some 2) all_logged)
              (csv_state true (Some 2)) eq_refl)
    as [st' [Hrun [_ [Hexecuted [Hlog Hnotices]]]]].
  - intros path Hin. vm_compute in Hin. vm_compute.
    destruct Hin as [<-|[<-|[<-|[]]]]; auto.
  - exists st'. split; [exact Hrun|]. split; [exact Hexecuted|].
    split; [exact Hlog|exact Hnotices].
Defined.

(** ** C2: three files in batches of two, then as one batch *)

Lemma C2_witness :
  file_list_state "csv" (csv_backend alice true (Some 2) []) = Some (csv_state true (Some 2)) /\
  exists st',
    ExecuteFileListPipeline list_csv command_completes 4 "csv" "select $1"
      (csv_backend alice true (Some 2) []) = Ok tt st' /\
    executed st'
    = [("select $1", TextArrayArg ["a.csv"; "b.csv"]);
       ("select $1", TextArrayArg ["c.csv"])]%string /\
    ceil_div 3 2 = 2%nat /\
    processed_files st' = all_logged.
Proof.
  split; [reflexivity|].
  destruct (C2_batches_cover_delta list_csv command_completes 4 "csv" "select $1"
              (csv_backend alice true (Some 2) []) (csv_state true (Some 2)))
    as [st' [Hrun [Hlog [Hchunks _]]]].
  - reflexivity.
  - reflexivity.
  - vm_compute. discriminate.
  - exact csv_files_distinct.
  - vm_compute. discriminate.
  - intros k Hk. injection Hk as <-. vm_compute. discriminate.
  - reflexivity.
  - vm_compute. lia.
  - exists st'. split; [exact Hrun|].
    destruct (Hchunks 2 eq_refl ltac:(lia)) as [Hexecuted _].
    split; [rewrite Hexecuted; reflexivity|].
    split; [reflexivity|].
    rewrite Hlog. reflexivity.
Defined.

Example whole_delta_in_one_call :
  exists st',
    ExecuteFileListPipeline list_csv command_completes 4 "csv" "select $1"
      (csv_backend alice true None []) = Ok tt st' /\
    executed st' = [("select $1", TextArrayArg csv_files)]%string /\
    processed_files st' = all_logged.
Proof. eexists. split; [vm_compute; reflexivity|]. split; reflexivity. Qed.

(** ** C3: the command fails on the second of three files *)

Lemma C3_witness :
  file_list_state "csv" (csv_backend alice false None []) = Some (csv_state false None) /\
  command_fails_on_b "select $1" (unit_arg (file_unit "csv" "b.csv")) = Some cannot_load /\
  exists raised,
    ExecuteFileListPipeline list_csv command_fails_on_b 4 "csv" "select $1"
      (csv_backend alice false None []) = Raise cannot_load raised /\
    processed_files raised = [("csv", "a.csv")]%string /\
    set_difference "csv" csv_files (processed_files raised) = ["b.csv"; "c.csv"]%string /\
    exists rolled_back,
      run_statement
        (ExecuteFileListPipeline list_csv command_fails_on_b 4 "csv" "select $1")
        (csv_backend alice false None []) = Some rolled_back /\
      processed_files rolled_back = [] /\
      set_difference "csv" csv_files (processed_files rolled_back) = csv_files.
Proof.
  split; [reflexivity|]. split; [reflexivity|].
  destruct (C3_failure_keeps_earlier_units_only_in_flight
              list_csv command_fails_on_b 4 "csv" "select $1"
              (csv_backend alice false None []) (csv_state false None)
              1%nat (file_unit "csv" "b.csv") cannot_load)
    as [raised [Hrun [Hlog [Hdelta [rolled_back [Hstmt [Hlog' Hdelta']]]]]]].
  - reflexivity.
  - vm_compute. discriminate.
  - exact csv_files_distinct.
  - vm_compute. discriminate.
  - intros k Hk. discriminate Hk.
  - vm_compute. lia.
  - reflexivity.
  - intros j v Hj Hv. destruct j as [|j]; [|lia].
    vm_compute in Hv. injection Hv as <-. reflexivity.
  - reflexivity.
  - exists raised. split; [exact Hrun|].
    split; [rewrite Hlog; reflexivity|].
    split; [exact Hdelta|].
    exists rolled_back. split; [exact Hstmt|]. split; [exact Hlog'|exact Hdelta'].
Defined.

(** The claim as stated: after the statement whose second command failed, the
    first item would be in the log and a retry would see only the items from the
    failed one onward.  The statement is rolled back as a whole: the log is
    empty again and the retry's delta is all three files.  And when the list
    function yields a path twice, already the log as it stands at the raise
    holds the item of a later unit, and the delta against it is not the items
    from the failed one onward. *)
Lemma C3_counterexample :
  (exists raised,
      ExecuteFileListPipeline list_csv command_fails_on_b 4 "csv" "select $1"
        (csv_backend alice false None []) = Raise cannot_load raised /\
      executed raised
      = [("select $1", TextArg "a.csv"); ("select $1", TextArg "b.csv")]%string) /\
  (exists retried,
      run_statement
        (ExecuteFileListPipeline list_csv command_fails_on_b 4 "csv" "select $1")
        (csv_backend alice false None []) = Some retried /\
      ~ In ("csv", "a.csv")%string (processed_files retried) /\
      GetUnprocessedFileList list_csv "csv" "list_files" "*.csv" retried
      = Ok ["a.csv"; "b.csv"; "c.csv"]%string retried /\
      ["a.csv"; "b.csv"; "c.csv"]%string <> ["b.csv"; "c.csv"]%string) /\
  exists raised,
    ExecuteFileListPipeline list_with_repeat command_fails_on_b 4 "csv" "select $1"
      (csv_backend alice false None []) = Raise cannot_load raised /\
    executed raised
    = [("select $1", TextArg "a.csv"); ("select $1", TextArg "b.csv")]%string /\
    nth_error (list_with_repeat "list_files" "*.csv") 2 = Some "a.csv"%string /\
    In ("csv", "a.csv")%string (processed_files raised) /\
    GetUnprocessedFileList list_with_repeat "csv" "list_files" "*.csv" raised
    = Ok ["b.csv"]%string raised /\
    ["b.csv"]%string <> ["b.csv"; "a.csv"]%string.
Proof.
  split; [|split].
  - eexists. split; [vm_compute; reflexivity|reflexivity].
  - eexists. split; [vm_compute; reflexivity|].
    split; [intros []|]. split; [vm_compute; reflexivity|discriminate].
  - eexists. split; [vm_compute; reflexivity|]. split; [reflexivity|].
    split; [reflexivity|]. split; [left; reflexivity|].
    split; [vm_compute; reflexivity|discriminate].
Qed.

(** ** C4: a descriptor of another type *)

Lemma C4_witness :
  ExecutePipeline sequence_strategy time_strategy "events" "s"%char "select $1, $2"
                  (registry_backend alice)
  = Ok tt (add_notice "sequence range strategy" (registry_backend alice)) /\
  ExecutePipeline sequence_strategy time_strategy "events" "t"%char "select $1, $2"
                  (registry_backend alice)
  = Ok tt (add_notice "time interval strategy" (registry_backend alice)) /\
  ExecutePipeline sequence_strategy time_strategy "csv" "f"%char "select $1"
                  (registry_backend alice)
  = Raise (mkError ERRCODE_INTERNAL_ERROR "unknown pipeline type: f")
          (registry_backend alice).
Proof.
  pose proof (C4_dispatch_over_two_kinds sequence_strategy time_strategy
                "events" "select $1, $2" "s"%char (registry_backend alice))
    as [Hs _].
  pose proof (C4_dispatch_over_two_kinds sequence_strategy time_strategy
                "events" "select $1, $2" "t"%char (registry_backend alice))
    as [_ [Ht _]].
  pose proof (C4_dispatch_over_two_kinds sequence_strategy time_strategy
                "csv" "select $1" "f"%char (registry_backend alice))
    as [_ [_ Hf]].
  destruct (Hs eq_refl) as [Hs' _]. destruct (Ht eq_refl) as [Ht' _].
  destruct (Hf ltac:(discriminate) ltac:(discriminate)) as [Hf' _].
  split; [rewrite Hs'; reflexivity|]. split; [rewrite Ht'; reflexivity|].
  rewrite Hf'. reflexivity.
Defined.

(** The claim as stated: a pipeline of each of the three kinds reaches its
    strategy.  The csv pipeline has file-list state and three unprocessed files,
    and its owner executes it: the dispatch raises the internal error, no
    command is executed and nothing is logged. *)
Lemma C4_counterexample :
  pipeline_row "csv" (registry_backend alice) = Some csv_row /\
  (exists fileList,
      GetUnprocessedFilesForPipeline list_csv "csv" (registry_backend alice)
      = Ok fileList (registry_backend alice) /\
      files fileList = csv_files) /\
  incremental_execute_pipeline only_bootstrap_is_superuser sequence_strategy time_strategy
                               "csv" (registry_backend alice)
  = Raise (mkError ERRCODE_INTERNAL_ERROR "unknown pipeline type: f")
          (registry_backend alice) /\
  incremental_reset_pipeline only_bootstrap_is_superuser "csv" (registry_backend alice)
  = Raise (mkError ERRCODE_INTERNAL_ERROR "unknown pipeline type: f")
          (registry_backend alice).
Proof.
  split; [reflexivity|]. split.
  - eexists. split; [vm_compute; reflexivity|reflexivity].
  - split; vm_compute; reflexivity.
Qed.

(** ** C5: deleting the log of a pipeline that has none *)

Lemma C5_witness :
  (exists st',
      RemoveProcessedFileList "csv" (csv_backend alice true None all_logged) = Ok tt st' /\
      processed_files st' = [] /\
      CurrentUserId st' = alice /\
      exists e raised, RemoveProcessedFileList "csv" st' = Raise e raised) /\
  RemoveProcessedFileList "csv" (csv_backend alice true None [])
  = Raise (mkError ERRCODE_UNDEFINED_OBJECT
             (String.append "pipeline " (String.append (quoted "csv") " cannot be found")))
          (elevated (csv_backend alice true None [])).
Proof.
  split.
  - destruct (C5_remove_needs_a_row "csv" (csv_backend alice true None all_logged))
      as [_ Hsome].
    destruct (Hsome eq_refl) as [st' [Hrun [Hst' [_ [_ Hagain]]]]].
    exists st'. split; [exact Hrun|]. rewrite Hst'.
    split; [reflexivity|]. split; [reflexivity|].
    rewrite <- Hst'. exact Hagain.
  - destruct (C5_remove_needs_a_row "csv" (csv_backend alice true None []))
      as [Hnone _].
    exact (proj1 (Hnone eq_refl)).
Defined.

(** The claim as stated: with no row to delete the call succeeds and leaves the
    state unchanged.  It raises, and the backend it leaves is not the one it
    was given. *)
Lemma C5_counterexample :
  has_processed_files "csv" (csv_backend alice true None []) = false /\
  RemoveProcessedFileList "csv" (csv_backend alice true None [])
  <> Ok tt (csv_backend alice true None []) /\
  exists e raised,
    RemoveProcessedFileList "csv" (csv_backend alice true None []) = Raise e raised /\
    sqlerrcode e = ERRCODE_UNDEFINED_OBJECT /\
    CurrentUserId raised = BOOTSTRAP_SUPERUSERID.
Proof.
  split; [reflexivity|]. split.
  - vm_compute. discriminate.
  - eexists. eexists. split; [vm_compute; reflexivity|]. split; reflexivity.
Qed.

(** ** C6: a time interval pipeline created with a start time, then reset *)

(** C6.  The input on which the code and the claim part: alice creates the
    time interval pipeline hourly with the start time 1000 and resets it.
    incremental_create_time_interval_pipeline hands the start time to the state
    initialisation, so the last-processed boundary starts at 1000.
    ResetPipeline, whose comment says that it resets a pipeline to its initial
    state, hands the constant 0 to the checkpoint update: after the reset the
    boundary is 0, not the start time.  The descriptor is kept.  For the
    sequence pipeline events the same constant is the initial value. *)
Theorem C6_reset_forgets_start_time :
  exists created reset,
    incremental_create_time_interval_pipeline
      sequence_strategy time_strategy feature_not_supported quote_literal string
      parse_query deparse_query schedule_cron_job
      (Some "hourly"%string) (Some 3600) (Some "select $1, $2"%string) (Some false)
      (Some 1000) None None (Some 60) None (empty_backend alice)
    = Ok tt created /\
    map last_processed_time (time_interval_pipelines created) = [1000] /\
    pipeline_row "hourly" created
    = Some (mkPipelineRow "hourly" TIME_INTERVAL_PIPELINE alice InvalidOid
                          "select $1, $2;") /\
    incremental_reset_pipeline only_bootstrap_is_superuser "hourly" created
    = Ok tt reset /\
    map last_processed_time (time_interval_pipelines reset) = [0] /\
    pipeline_row "hourly" reset = pipeline_row "hourly" created /\
    (exists reset_events,
        incremental_reset_pipeline only_bootstrap_is_superuser "events"
                                   (registry_backend alice)
        = Ok tt reset_events /\
        map last_processed_sequence_number (sequence_pipelines (registry_backend alice))
        = [40] /\
        map last_processed_sequence_number (sequence_pipelines reset_events) = [0]).
Proof.
  eexists. eexists.
  split; [vm_compute; reflexivity|].
  split; [reflexivity|]. split; [reflexivity|].
  split; [vm_compute; reflexivity|].
  split; [reflexivity|]. split; [reflexivity|].
  eexists. split; [vm_compute; reflexivity|]. split; reflexivity.
Qed.

(** ** C7: a descriptor that does not exist, a path already in the log *)


(** ** C8: bob is not the owner, alice is *)

Lemma C8_witness :
  pipeline_row "events" (registry_backend bob) = Some events_row /\
  incremental_execute_pipeline only_bootstrap_is_superuser sequence_strategy time_strategy
                               "events" (registry_backend bob)
  = Raise (mkError ERRCODE_INSUFFICIENT_PRIVILEGE "permission denied for pipeline events")
          (registry_backend bob) /\
  incremental_drop_pipeline only_bootstrap_is_superuser unschedule
                            "events" (registry_backend bob)
  = Raise (mkError ERRCODE_INSUFFICIENT_PRIVILEGE "permission denied for pipeline events")
          (registry_backend bob) /\
  incremental_execute_pipeline only_bootstrap_is_superuser sequence_strategy time_strategy
                               "events" (registry_backend alice)
  = Ok tt (add_notice "sequence range strategy" (registry_backend alice)).
Proof.
  destruct (C8_ownership_enforced only_bootstrap_is_superuser sequence_strategy
              time_strategy unschedule "events" (registry_backend bob) events_row eq_refl)
    as [Hdenied _].
  destruct (Hdenied eq_refl ltac:(discriminate)) as [Hexecute [_ Hdrop]].
  destruct (C8_ownership_enforced only_bootstrap_is_superuser sequence_strategy
              time_strategy unschedule "events" (registry_backend alice) events_row eq_refl)
    as [_ Hallowed].
  destruct (Hallowed (or_intror eq_refl)) as [_ [Hrun _]].
  split; [reflexivity|]. split; [exact Hexecute|]. split; [exact Hdrop|].
  rewrite Hrun. reflexivity.
Defined.

(** ** C10: the bootstrap superuser creates a pipeline *)

Lemma C10_witness :
  pipeline_row "events" (empty_backend alice) = None /\
  exists st' pipelineDesc,
    InsertPipeline "events" SEQUENCE_RANGE_PIPELINE 0 "select $1, $2" (empty_backend alice)
    = Ok tt st' /\
    ReadPipelineDesc "events" st' = Ok pipelineDesc st' /\
    ownerId pipelineDesc = alice /\
    CurrentUserId st' = alice.
Proof.
  split; [reflexivity|].
  destruct (C10_owner_is_the_caller "events" SEQUENCE_RANGE_PIPELINE 0 "select $1, $2"
              (empty_backend alice) eq_refl)
    as [st' [Hinsert [Huser [_ [pipelineDesc [Hread [Howner _]]]]]]].
  exists st', pipelineDesc.
  split; [exact Hinsert|]. split; [exact Hread|]. split; [exact Howner|exact Huser].
Defined.

(** The claim as stated: the recorded owner is the caller and never the
    bootstrap superuser.  When the caller is the bootstrap superuser, the
    recorded owner is the bootstrap superuser. *)
Lemma C10_counterexample :
  exists st' pipelineDesc,
    InsertPipeline "events" SEQUENCE_RANGE_PIPELINE 0 "select $1, $2"
                   (empty_backend BOOTSTRAP_SUPERUSERID) = Ok tt st' /\
    ReadPipelineDesc "events" st' = Ok pipelineDesc st' /\
    ownerId pipelineDesc = CurrentUserId (empty_backend BOOTSTRAP_SUPERUSERID) /\
    ownerId pipelineDesc = BOOTSTRAP_SUPERUSERID.
Proof.
  eexists. eexists. split; [vm_compute; reflexivity|].
  split; [vm_compute; reflexivity|]. split; reflexivity.
Qed.

(** ** Further properties, on the same scenarios *)

Lemma file_list_loops_settle_witness :
  settled (batched_loop command_completes 4 "csv" "select $1"
             (mkFileList csv_files true 2) 0
             (csv_backend alice true (Some 2) [("csv", "c.csv")]%string)) /\
  settled (foreach_file command_completes "csv" "select $1" csv_files
             (csv_backend alice true (Some 2) [("csv", "c.csv")]%string)).
Proof.
  apply (file_list_loops_settle command_completes 4 "csv" "select $1"
           (mkFileList csv_files true 2)
           (csv_backend alice true (Some 2) [("csv", "c.csv")]%string)).
  - discriminate.
  - vm_compute. discriminate.
  - vm_compute. discriminate.
  - vm_compute. lia.
Defined.

Lemma second_execution_is_noop_witness :
  exists st',
    ExecuteFileListPipeline list_csv command_completes 4 "csv" "select $1"
      (csv_backend alice true (Some 2) []) = Ok tt st' /\
    processed_files st' = all_logged /\
    ExecuteFileListPipeline list_csv command_completes 4 "csv" "select $1" st'
    = Ok tt (add_notice "pipeline csv: no files to process" st').
Proof.
  destruct (second_execution_is_noop list_csv command_completes 4 "csv" "select $1"
              (csv_backend alice true (Some 2) []) (csv_state true (Some 2)))
    as [st' [Hfirst [_ Hsecond]]].
  - reflexivity.
  - exact csv_files_distinct.
  - vm_compute. discriminate.
  - intros k Hk. injection Hk as <-. vm_compute. discriminate.
  - reflexivity.
  - vm_compute. lia.
  - exists st'. split; [exact Hfirst|]. split; [|exact Hsecond].
    vm_compute in Hfirst. injection Hfirst as <-. reflexivity.
Defined.

Lemma initialized_state_is_read_back_witness :
  file_list_state "csv" (empty_backend alice) = None /\
  exists st' fileList,
    InitializeFileListPipelineState "csv" "*.csv" true "list_files" 0 (empty_backend alice)
    = Ok tt st' /\
    GetUnprocessedFilesForPipeline list_csv "csv" st' = Ok fileList st' /\
    batched fileList = true /\
    maxBatchSize fileList = -1 /\
    files fileList = csv_files.
Proof.
  split; [reflexivity|].
  destruct (initialized_state_is_read_back list_csv "csv" "*.csv" true "list_files" 0
              (empty_backend alice) eq_refl)
    as [st' [fileList [Hinit [Hread [Hbatched [Hmax Hfiles]]]]]].
  exists st', fileList.
  split; [exact Hinit|]. split; [exact Hread|]. split; [exact Hbatched|].
  split; [exact Hmax|]. rewrite Hfiles. reflexivity.
Defined.

Lemma unbatched_execution_covers_delta_witness :
  exists st',
    ExecuteFileListPipeline list_csv command_completes 0 "csv" "select $1"
      (csv_backend alice false None [("csv", "a.csv")]%string) = Ok tt st' /\
    executed st'
    = [("select $1", TextArg "b.csv"); ("select $1", TextArg "c.csv")]%string /\
    processed_files st' = all_logged.
Proof.
  destruct (unbatched_execution_covers_delta list_csv command_completes 0 "csv" "select $1"
              (csv_backend alice false None [("csv", "a.csv")]%string)
              (csv_state false None))
    as [st' [Hrun [Hexecuted [Hlog _]]]].
  - reflexivity.
  - reflexivity.
  - vm_compute. distinct_strings.
  - intros path _. reflexivity.
  - exists st'. split; [exact Hrun|].
    split; [rewrite Hexecuted; reflexivity | rewrite Hlog; reflexivity].
Defined.

Lemma completed_execution_logs_the_delta_witness :
  exists st',
    ExecuteFileListPipeline list_csv command_completes 4 "csv" "select $1"
      (csv_backend bob true None [("csv", "b.csv")]%string) = Ok tt st' /\
    processed_files st' = [("csv", "b.csv"); ("csv", "a.csv"); ("csv", "c.csv")]%string /\
    CurrentUserId st' = bob.
Proof.
  destruct (completed_execution_logs_the_delta list_csv command_completes 4 "csv"
              "select $1" (csv_backend bob true None [("csv", "b.csv")]%string)
              (csv_state true None))
    as [st' [Hrun [Hlog [Huser _]]]].
  - reflexivity.
  - vm_compute. distinct_strings.
  - vm_compute. discriminate.
  - intros k Hk. discriminate Hk.
  - reflexivity.
  - vm_compute. lia.
  - exists st'. split; [exact Hrun|].
    split; [rewrite Hlog; reflexivity | exact Huser].
Defined.

Lemma command_failure_leaves_caller_identity_witness :
  exists raised,
    ExecuteFileListPipeline list_csv command_fails_on_b 4 "csv" "select $1"
      (csv_backend bob true (Some 2) []) = Raise cannot_load raised /\
    CurrentUserId raised = bob /\
    executed raised = [("select $1", TextArrayArg ["a.csv"; "b.csv"])]%string.
Proof.
  destruct (command_failure_leaves_caller_identity
              list_csv command_fails_on_b 4 "csv" "select $1"
              (csv_backend bob true (Some 2) []) (csv_state true (Some 2))
              [] (chunk_unit "csv" ["a.csv"; "b.csv"]%string)
              [chunk_unit "csv" ["c.csv"]%string] cannot_load)
    as [raised [Hrun [Huser [_ Hexecuted]]]].
  - reflexivity.
  - vm_compute. discriminate.
  - exact csv_files_distinct.
  - vm_compute. discriminate.
  - intros k Hk. injection Hk as <-. vm_compute. discriminate.
  - vm_compute. lia.
  - reflexivity.
  - intros v [].
  - reflexivity.
  - exists raised. split; [exact Hrun|]. split; [exact Huser|].
    rewrite Hexecuted. reflexivity.
Defined.

Lemma removed_log_makes_everything_unprocessed_witness :
  exists st',
    RemoveProcessedFileList "csv" (csv_backend alice true (Some 2) all_logged)
    = Ok tt st' /\
    GetUnprocessedFileList list_csv "csv" "list_files" "*.csv" st' = Ok csv_files st'.
Proof.
  destruct (removed_log_makes_everything_unprocessed list_csv "csv"
              (csv_backend alice true (Some 2) all_logged) eq_refl)
    as [st' [Hremove [Hall _]]].
  exists st'. split; [exact Hremove|]. exact (Hall "list_files" "*.csv")%string.
Defined.

Lemma entry_points_need_a_descriptor_witness :
  incremental_drop_pipeline only_bootstrap_is_superuser unschedule "absent"
    (registry_backend bob)
  = Raise (no_such_pipeline "absent") (elevated (registry_backend bob)).
Proof.
  destruct (entry_points_need_a_descriptor only_bootstrap_is_superuser sequence_strategy
              time_strategy unschedule "absent" (registry_backend bob) eq_refl)
    as [_ [_ [Hdrop _]]].
  exact Hdrop.
Defined.

Lemma InsertPipeline_then_DeletePipeline_witness :
  exists st',
    InsertPipeline "orders" SEQUENCE_RANGE_PIPELINE orders_table "select $1, $2"
      (registry_backend bob) = Ok tt st' /\
    pipeline_row "events" st' = Some events_row /\
    DeletePipeline "orders" st' = Ok tt (registry_backend bob).
Proof.
  destruct (InsertPipeline_then_DeletePipeline "orders" SEQUENCE_RANGE_PIPELINE
              orders_table "select $1, $2" (registry_backend bob) eq_refl)
    as [st' [Hinsert [Hothers Hdelete]]].
  exists st'. split; [exact Hinsert|]. split; [|exact Hdelete].
  rewrite (Hothers "events"%string); [reflexivity | discriminate].
Defined.

Lemma dropped_pipeline_is_gone_witness :
  exists st',
    incremental_drop_pipeline only_bootstrap_is_superuser unschedule "events"
      (registry_backend alice) = Ok tt st' /\
    pipeline_row "events" st' = None /\
    incremental_execute_pipeline only_bootstrap_is_superuser sequence_strategy
      time_strategy "events" st'
    = Raise (no_such_pipeline "events") (elevated st').
Proof.
  destruct (dropped_pipeline_is_gone only_bootstrap_is_superuser sequence_strategy
              time_strategy unschedule "events" (registry_backend alice) events_row)
    as [st' [Hdrop [Hgone [Hexecute _]]]].
  - reflexivity.
  - right. reflexivity.
  - intros jobName s. eexists. split; reflexivity.
  - exists st'. split; [exact Hdrop|]. split; [exact Hgone | exact Hexecute].
Defined.

Lemma cron_job_name_determines_pipeline_witness :
  GetCronJobNameForPipeline "events" = "pipeline:events"%string /\
  String.append "eve" "nts" = "events"%string.
Proof.
  split; [reflexivity|].
  exact (cron_job_name_determines_pipeline (String.append "eve" "nts") "events" eq_refl).
Defined.

Lemma created_sequence_pipeline_is_registered_witness :
  exists st',
    incremental_create_sequence_pipeline
      sequence_strategy time_strategy feature_not_supported catalog_relkind catalog_owner
      catalog_rel_name quote_literal find_sequence initialize_sequence_state string
      parse_query deparse_query schedule_cron_job
      (Some "orders"%string) (Some orders_id_seq) (Some "select $1, $2"%string) None None
      (registry_backend bob) = Ok tt st' /\
    pipeline_row "orders" st'
    = Some (mkPipelineRow "orders" SEQUENCE_RANGE_PIPELINE bob orders_table
                          "select $1, $2;") /\
    pipeline_row "events" st' = Some events_row.
Proof.
  destruct (created_sequence_pipeline_is_registered
              sequence_strategy time_strategy feature_not_supported catalog_relkind
              catalog_owner catalog_rel_name quote_literal find_sequence
              initialize_sequence_state string parse_query deparse_query
              schedule_cron_job
              "orders" orders_id_seq orders_table orders_id_seq
              "select $1, $2" "select $1, $2;" "select $1, $2"%string None
              (registry_backend bob))
    as [st' [Hcreate [Hrow Hothers]]].
  - left. split; [reflexivity|]. split; [reflexivity|]. exists 1. reflexivity.
  - reflexivity.
  - reflexivity.
  - reflexivity.
  - intros s. eexists. split; reflexivity.
  - discriminate.
  - exists st'. split; [exact Hcreate|]. split; [exact Hrow|].
    rewrite (Hothers "events"%string); [reflexivity | discriminate].
Defined.

